(** * NACA 4-digit airfoil coordinates: a model of [naca.py] and its properties

    The development embeds the single function [NACA4] of [naca.py].

    - Python [str] values are [string]s of ASCII characters.
    - Python [int] values are [Z].
    - Python and NumPy [float] values are modelled as real numbers [R] with
      exact arithmetic. Where a property is about rounding itself (the
      closing of the trailing edge), the program is read a second time in
      [Fl], with every float operation left to an arbitrary [arithmetic].
    - One-dimensional NumPy arrays are lists, two-column matrices are lists
      of pairs.
    - Exceptions are values of [exn], threaded through the [result] monad.
    - The file system touched by [np.savetxt] is a finite map from file
      names to file contents. *)

From Stdlib Require Import Reals Lra Lia ZArith String Ascii List.
From stdpp Require Import base list strings pretty gmap.
Import ListNotations.

Open Scope R_scope.

(** ** Exceptions and the result monad *)

(** The exceptions the body of [NACA4] can raise, one constructor per
    raising site. *)
Inductive exn : Set :=
| ValueError_int_literal    (* int(number) rejects the string, line 62 *)
| ValueError_invalid_input  (* raise ValueError("Invalid input."), line 63 *)
| IndexError_string         (* number[0] or number[1] out of range, lines 68-69 *)
| ValueError_float_literal  (* float(...) rejects the string, lines 68-70 *)
| ValueError_shape          (* operands of mismatching shapes, lines 111-112, 130 *)
| IndexError_array.         (* y[0] = 0 or y[-1] = 0 on an empty array, lines 127-128 *)

Inductive result (A : Type) : Type :=
| Ok (a : A)
| Raise (e : exn).
Arguments Ok {A} a.
Arguments Raise {A} e.

#[global] Instance result_ret : MRet result := λ A, Ok.
#[global] Instance result_bind : MBind result :=
  λ A B f r, match r with Ok a => f a | Raise e => Raise e end.
#[global] Instance result_fmap : FMap result :=
  λ A B f r, match r with Ok a => Ok (f a) | Raise e => Raise e end.

(** Both exceptions of the validation step (lines 62-63) are Python
    [ValueError]s raised before anything is computed. *)
Definition validation_error (e : exn) : bool :=
  match e with
  | ValueError_int_literal | ValueError_invalid_input => true
  | _ => false
  end.

(** Comparisons on [R] as decisions, for [if] and for boolean masks. *)
#[global] Instance Rlt_decision (x y : R) : Decision (x < y) := Rlt_dec x y.
#[global] Instance Rge_decision (x y : R) : Decision (x >= y) := Rge_dec x y.
#[global] Instance Req_decision : EqDecision R := Req_dec_T.

(** ** Python built-ins on strings *)

Module Py.

(** ASCII white space as skipped by [int()] and [float()]. *)
Definition is_space (c : ascii) : bool :=
  let n := nat_of_ascii c in
  ((9 <=? n)%nat && (n <=? 13)%nat) || (n =? 32)%nat.

Definition is_digit (c : ascii) : bool :=
  let n := nat_of_ascii c in (48 <=? n)%nat && (n <=? 57)%nat.

Definition digit_val (c : ascii) : Z := Z.of_nat (nat_of_ascii c - 48).

Fixpoint lstrip (l : list ascii) : list ascii :=
  match l with
  | c :: l' => if is_space c then lstrip l' else l
  | [] => []
  end.

Definition strip (l : list ascii) : list ascii :=
  rev (lstrip (rev (lstrip l))).

(** Digits after the first one; a single underscore may separate two
    digits. [acc] is the value read so far. *)
Fixpoint more_digits (l : list ascii) (acc : Z) : option Z :=
  match l with
  | [] => Some acc
  | c :: l' =>
      if is_digit c then more_digits l' (10 * acc + digit_val c)%Z
      else if Ascii.eqb c "_" then
        match l' with
        | d :: l'' =>
            if is_digit d then more_digits l'' (10 * acc + digit_val d)%Z
            else None
        | [] => None
        end
      else None
  end.

Definition unsigned_literal (l : list ascii) : option Z :=
  match l with
  | c :: l' => if is_digit c then more_digits l' (digit_val c) else None
  | [] => None
  end.

Definition signed_literal (l : list ascii) : option Z :=
  match l with
  | c :: l' =>
      if Ascii.eqb c "+" then unsigned_literal l'
      else if Ascii.eqb c "-" then Z.opp <$> unsigned_literal l'
      else unsigned_literal l
  | [] => None
  end.

(** The decimal integer a string denotes: optional white space around an
    optionally signed run of digits. *)
Definition integer_literal (s : string) : option Z :=
  signed_literal (strip (list_ascii_of_string s)).

(** [int(s)] for a string [s], base 10. No limit on the number of digits
    is modelled. *)
Definition int (s : string) : result Z :=
  match integer_literal s with
  | Some z => Ok z
  | None => Raise ValueError_int_literal
  end.

(** [float(s)] for a string [s]. Every string [NACA4] converts is a piece
    of a string [int] has accepted, so it holds white space, signs,
    digits and underscores only; on such strings [float] accepts exactly
    the integer literals. Fractions, exponents, [inf] and [nan] are not
    part of the model. *)
Definition float (s : string) : result R :=
  match integer_literal s with
  | Some z => Ok (IZR z)
  | None => Raise ValueError_float_literal
  end.

(** [s[i]] for a non-negative index. *)
Definition index (s : string) (i : nat) : result string :=
  match String.get i s with
  | Some c => Ok (String c EmptyString)
  | None => Raise IndexError_string
  end.

(** [s[i:]] never raises. *)
Definition slice_from (s : string) (i : nat) : string :=
  string_of_list_ascii (drop i (list_ascii_of_string s)).

End Py.

(** ** NumPy operations on one-dimensional arrays *)

Module Np.

(** [np.linspace(start, stop, num)] with the default [endpoint=True]:
    [arange(0, num)] scaled by the step and shifted, the last sample
    overwritten by [stop] when there are at least two. *)
Definition linspace (start stop : R) (num : nat) : list R :=
  let div := (num - 1)%nat in
  let delta := stop - start in
  let y := INR <$> seq 0 num in
  let y :=
    if (0 <? div)%nat then
      let step := delta / INR div in
      if decide (step = 0) then (λ v, v / INR div * delta) <$> y
      else (λ v, v * step) <$> y
    else (λ v, v * delta) <$> y in
  let y := (λ v, v + start) <$> y in
  if (1 <? num)%nat then <[(num - 1)%nat := stop]> y else y.

(** An elementwise binary operation with NumPy broadcasting of a
    one-element operand. *)
Definition broadcast (f : R → R → R) (a b : list R) : result (list R) :=
  if (length a =? length b)%nat then Ok (zip_with f a b)
  else match a, b with
       | [u], _ => Ok (f u <$> b)
       | _, [v] => Ok ((λ u, f u v) <$> a)
       | _, _ => Raise ValueError_shape
       end.

Definition add : list R → list R → result (list R) := broadcast Rplus.
Definition subtract : list R → list R → result (list R) := broadcast Rminus.

Definition zeros (n : nat) : list R := replicate n 0.
Definition flipud (a : list R) : list R := reverse a.
Definition append (a b : list R) : list R := a ++ b.

(** [a[i] = v] for the two indices the program uses: [0] and [-1]. *)
Definition set_first (a : list R) (v : R) : result (list R) :=
  if (0 <? length a)%nat then Ok (<[0%nat := v]> a) else Raise IndexError_array.
Definition set_last (a : list R) (v : R) : result (list R) :=
  if (0 <? length a)%nat then Ok (<[(length a - 1)%nat := v]> a)
  else Raise IndexError_array.

(** [np.column_stack((x, y))] for two one-dimensional arrays. *)
Definition column_stack (x y : list R) : result (list (R * R)) :=
  if (length x =? length y)%nat then Ok (zip x y) else Raise ValueError_shape.

(** The nearest integer, ties to the even one. *)
Definition round_half_even (r : R) : Z :=
  let f := Int_part r in
  let d := r - IZR f in
  if decide (d < 1 / 2) then f
  else if decide (1 / 2 < d) then (f + 1)%Z
  else if Z.even f then f else (f + 1)%Z.

Definition six_digits (k : Z) : string :=
  string_of_list_ascii
    (drop 1 (list_ascii_of_string (pretty (1000000 + k)%Z))).

(** The ["%f"] conversion of a float: sign, integer part, a point and
    six decimals of the rounded magnitude. *)
Definition format_f (x : R) : string :=
  let n := round_half_even (Rabs x * 10 ^ 6) in
  (if decide (x < 0) then "-" else "")
  +:+ pretty (n / 1000000)%Z +:+ "." +:+ six_digits (n mod 1000000)%Z.

Definition newline : string := String "010" EmptyString.
Definition tab : string := String "009" EmptyString.

(** [header.replace('\n', '\n' + comments)] *)
Fixpoint comment_lines (comments header : string) : string :=
  match header with
  | EmptyString => EmptyString
  | String c rest =>
      if Ascii.eqb c "010"
      then newline +:+ comments +:+ comment_lines comments rest
      else String c (comment_lines comments rest)
  end.

(** One row under [fmt='%f'] and [delimiter='\t']. *)
Definition row (xy : R * R) : string :=
  format_f xy.1 +:+ tab +:+ format_f xy.2 +:+ newline.

Definition rows (X : list (R * R)) : string :=
  foldr (λ xy acc, row xy +:+ acc) EmptyString X.

(** The text [np.savetxt(fname, X, delimiter='\t', fmt='%f',
    header=header)] writes: the header behind the default comment prefix
    ["# "], then one row per line. *)
Definition savetxt_content (X : list (R * R)) (header : string) : string :=
  "# " +:+ comment_lines "# " header +:+ newline +:+ rows X.

Definition savetxt (fname : string) (X : list (R * R)) (header : string)
    (fs : gmap string string) : gmap string string :=
  <[fname := savetxt_content X header]> fs.

End Np.

(** ** The program: [NACA4] *)

(** Lines 68-77: the three fields of the designator, scaled. *)
Definition decode (number : string) : result (R * R * R) :=
  c0 ← Py.index number 0;
  m ← Py.float c0;
  c1 ← Py.index number 1;
  p ← Py.float c1;
  t ← Py.float (Py.slice_from number 2);
  let m := if decide (m ≠ 0) then m / 100 else m in
  let p := if decide (p ≠ 0) then p / 10 else p in
  let t := if decide (t ≠ 0) then t / 100 else t in
  mret (m, p, t).

(** Lines 81-84: the chordwise stations. *)
Definition grid (half_cosine_spacing : bool) (N : Z) : list R :=
  if half_cosine_spacing then
    (λ v, (1 - cos v) / 2) <$> Np.linspace 0 PI (Z.to_nat N)
  else Np.linspace 0 1 (Z.to_nat N).

(** Lines 89-96: the half thickness at every station. *)
Definition thickness_distribution (closed_trailing_edge : bool) (t : R)
    (x : list R) : list R :=
  if closed_trailing_edge then
    (λ x, t / 0.20 * (0.29690 * sqrt x - 0.12600 * x - 0.35160 * x ^ 2
                      + 0.28430 * x ^ 3 - 0.10360 * x ^ 4)) <$> x
  else
    (λ x, t / 0.20 * (0.29690 * sqrt x - 0.12600 * x - 0.35160 * x ^ 2
                      + 0.28430 * x ^ 3 - 0.10150 * x ^ 4)) <$> x.

(** Lines 100-109: the camber line at every station. *)
Definition camber_line (m p : R) (x : list R) : list R :=
  let fwd_x := filter (λ v, v < p) x in
  let aft_x := filter (λ v, v >= p) x in
  if decide ((0 < p ∧ p < 1) ∧ (0 < m ∧ m < 1)) then
    let fwd_camber := (λ v, m / p ^ 2 * (2 * p * v - v ^ 2)) <$> fwd_x in
    let aft_camber :=
      (λ v, m / (1 - p) ^ 2 * ((1 - 2 * p) + 2 * p * v - v ^ 2)) <$> aft_x in
    Np.append fwd_camber aft_camber
  else Np.zeros (length x).

(** Lines 114-128: both surfaces joined into one array of ordinates. *)
Definition join_surfaces (closed_trailing_edge : bool)
    (y_upper y_lower : list R) : result (list R) :=
  let y_upper := Np.flipud y_upper in
  let y_lower := drop 1 y_lower in
  let y := Np.append y_upper y_lower in
  if closed_trailing_edge then
    y ← Np.set_first y 0;
    Np.set_last y 0
  else Ok y.

(** Lines 61-130: everything but the optional file. *)
Definition NACA4_coordinates (number : string) (N : Z)
    (half_cosine_spacing closed_trailing_edge : bool) : result (list (R * R)) :=
  n ← Py.int number;
  if negb ((0 <? n)%Z && (n <? 10000)%Z && (N >? 0)%Z)
  then Raise ValueError_invalid_input
  else
    '(m, p, t) ← decode number;
    let x := grid half_cosine_spacing N in
    let thickness := thickness_distribution closed_trailing_edge t x in
    let camber := camber_line m p x in
    y_upper ← Np.add camber thickness;
    y_lower ← Np.subtract camber thickness;
    let x_upper := Np.flipud x in
    let x_lower := drop 1 x in
    let x := Np.append x_upper x_lower in
    y ← join_surfaces closed_trailing_edge y_upper y_lower;
    Np.column_stack x y.

(** The whole function: the coordinates, and the file system after the
    call. The write itself is assumed to succeed. *)
Definition NACA4 (number : string) (N : Z)
    (half_cosine_spacing closed_trailing_edge save_to_file : bool)
    (fs : gmap string string) : result (list (R * R)) * gmap string string :=
  match NACA4_coordinates number N half_cosine_spacing closed_trailing_edge with
  | Ok coordinates =>
      (Ok coordinates,
       if save_to_file then
         Np.savetxt ("NACA " +:+ number +:+ ".dat") coordinates
           ("NACA " +:+ number) fs
       else fs)
  | Raise e => (Raise e, fs)
  end.

(** ** Designators *)

(** The validation of line 62 on the designator alone. *)
Definition in_range (number : string) : bool :=
  match Py.integer_literal number with
  | Some n => (0 <? n)%Z && (n <? 10000)%Z
  | None => false
  end.

(** The designators on which lines 68-70 succeed: two leading digits and a
    remainder that reads as a number. *)
Definition decodable (number : string) : bool :=
  match list_ascii_of_string number with
  | c0 :: c1 :: rest =>
      Py.is_digit c0 && Py.is_digit c1
      && bool_decide (is_Some (Py.signed_literal (Py.strip rest)))
  | _ => false
  end.

(** A designator the function accepts. *)
Definition valid_designator (number : string) : bool :=
  in_range number && decodable number.

(** Exactly four decimal digits. *)
Definition four_digits (number : string) : bool :=
  match list_ascii_of_string number with
  | [c0; c1; c2; c3] =>
      Py.is_digit c0 && Py.is_digit c1 && Py.is_digit c2 && Py.is_digit c3
  | _ => false
  end.

(** ** The specification's formulas and names for intermediate arrays *)

(** The stations as the specification writes them. *)
Definition spec_half_cosine_station (N : Z) (i : nat) : R :=
  (1 - cos (PI * INR i / IZR (N - 1))) / 2.
Definition spec_linear_station (N : Z) (i : nat) : R :=
  INR i / IZR (N - 1).
Definition spec_station (half_cosine_spacing : bool) : Z → nat → R :=
  if half_cosine_spacing then spec_half_cosine_station else spec_linear_station.

(** The formulas as the specification writes them. *)
Definition spec_c4 (closed_trailing_edge : bool) : R :=
  if closed_trailing_edge then 0.10360 else 0.10150.

Definition spec_thickness (c4 t x : R) : R :=
  (t / 0.20) * (0.29690 * sqrt x - 0.12600 * x - 0.35160 * x ^ 2
                + 0.28430 * x ^ 3 - c4 * x ^ 4).

Definition spec_camber (m p x : R) : R :=
  if decide ((0 < p ∧ p < 1) ∧ (0 < m ∧ m < 1)) then
    if decide (x < p) then (m / p ^ 2) * (2 * p * x - x ^ 2)
    else (m / (1 - p) ^ 2) * ((1 - 2 * p) + 2 * p * x - x ^ 2)
  else 0.

(** A list of stations in strictly increasing order. *)
Definition increasing (x : list R) : Prop :=
  ∀ i j xi xj, (i < j)%nat → x !! i = Some xi → x !! j = Some xj → xi < xj.

(** The arrays [y_upper] and [y_lower] of lines 111-112 when both operands
    have one length. *)
Definition upper_surface (m p t : R) (cte : bool) (x : list R) : list R :=
  zip_with Rplus (camber_line m p x) (thickness_distribution cte t x).
Definition lower_surface (m p t : R) (cte : bool) (x : list R) : list R :=
  zip_with Rminus (camber_line m p x) (thickness_distribution cte t x).

(** Lines 126-128 on a non-empty array. *)
Definition closed_ends (cte : bool) (y : list R) : list R :=
  if cte then <[(length y - 1)%nat := 0]> (<[0%nat := 0]> y) else y.

(** The abscissas and the ordinates of the result. *)
Definition loop_x (x : list R) : list R := reverse x ++ drop 1 x.
Definition loop_y (m p t : R) (cte : bool) (x : list R) : list R :=
  closed_ends cte
    (reverse (upper_surface m p t cte x) ++ drop 1 (lower_surface m p t cte x)).

(** The ordinate the result holds for station [i] of a surface whose
    ordinate before closing is [y]. *)
Definition closed_at (cte : bool) (n i : nat) (y : R) : R :=
  if cte && (i =? n - 1)%nat then 0 else y.

(** A string that holds no line feed. *)
Definition single_line (s : string) : bool :=
  forallb (λ c, negb (Ascii.eqb c "010")) (list_ascii_of_string s).

(** Twice the signed area a closed polyline encloses (the shoelace sum):
    negative when the polyline runs clockwise in axes with [x] to the right
    and [y] upwards, positive when it runs counter-clockwise. *)
Fixpoint shoelace (points : list (R * R)) : R :=
  match points with
  | a :: (b :: _) as rest => (a.1 * b.2 - b.1 * a.2) + shoelace rest
  | _ => 0
  end.

(** The characters a string can hold when [int] accepts it. *)
Definition literal_char (c : ascii) : bool :=
  Py.is_space c || Py.is_digit c
  || Ascii.eqb c "+" || Ascii.eqb c "-" || Ascii.eqb c "_".

(** The trapezoid-rule sum of [f] over consecutive stations: the sum of
    [(b - a) * (f a + f b)] over neighbours [a], [b], that is twice the
    trapezoid-rule integral of [f]. *)
Fixpoint trapezoid (f : R → R) (x : list R) : R :=
  match x with
  | a :: (b :: _) as rest => (b - a) * (f a + f b) + trapezoid f rest
  | _ => 0
  end.

(** ** The program under any float arithmetic *)

(** An interpretation of the operations on floats that [NACA4] uses: the
    value of a decimal literal and of [math.pi], the four operations,
    Python's [**], and NumPy's [sqrt], [cos] and [power]. [exact] computes
    in the reals, as the definitions above do; binary64 arithmetic on
    finite values rounds every literal and the result of every operation.
    Comparisons, the conversion of an integer and the store of a value
    into an array are exact under every interpretation. *)
Record arithmetic : Type := {
  fl_literal : R → R;
  fl_pi : R;
  fl_add : R → R → R;
  fl_sub : R → R → R;
  fl_mul : R → R → R;
  fl_div : R → R → R;
  fl_pow : R → nat → R;
  fl_sqrt : R → R;
  fl_cos : R → R;
  fl_power : R → nat → R
}.

Definition exact : arithmetic := {|
  fl_literal := λ v, v;
  fl_pi := PI;
  fl_add := Rplus;
  fl_sub := Rminus;
  fl_mul := Rmult;
  fl_div := Rdiv;
  fl_pow := pow;
  fl_sqrt := sqrt;
  fl_cos := cos;
  fl_power := pow
|}.

(** Exact operations on literals rounded to three decimals: a small-scale
    picture of binary64, where 0.10360 and its neighbours are not
    representable either. *)
Definition three_decimals : arithmetic := {|
  fl_literal := λ v, IZR (Np.round_half_even (v * 1000)) / 1000;
  fl_pi := PI;
  fl_add := Rplus;
  fl_sub := Rminus;
  fl_mul := Rmult;
  fl_div := Rdiv;
  fl_pow := pow;
  fl_sqrt := sqrt;
  fl_cos := cos;
  fl_power := pow
|}.

(** The body of [NACA4] once more, line by line as above, with every float
    operation read in an arithmetic [A]. *)
Module Fl.
Section Arithmetic.
Variable A : arithmetic.

Notation "a ⊕ b" := (fl_add A a b) (at level 50, left associativity).
Notation "a ⊖ b" := (fl_sub A a b) (at level 50, left associativity).
Notation "a ⊗ b" := (fl_mul A a b) (at level 40, left associativity).
Notation "a ⊘ b" := (fl_div A a b) (at level 40, left associativity).
Notation "# v" := (fl_literal A v) (at level 9, format "# v").

(** Lines 68-77. *)
Definition decode (number : string) : result (R * R * R) :=
  c0 ← Py.index number 0;
  m ← Py.float c0;
  c1 ← Py.index number 1;
  p ← Py.float c1;
  t ← Py.float (Py.slice_from number 2);
  let m := if decide (m ≠ 0) then m ⊘ 100 else m in
  let p := if decide (p ≠ 0) then p ⊘ 10 else p in
  let t := if decide (t ≠ 0) then t ⊘ 100 else t in
  mret (m, p, t).

(** [np.linspace(start, stop, num)]. *)
Definition linspace (start stop : R) (num : nat) : list R :=
  let div := (num - 1)%nat in
  let delta := stop ⊖ start in
  let y := INR <$> seq 0 num in
  let y :=
    if (0 <? div)%nat then
      let step := delta ⊘ INR div in
      if decide (step = 0) then (λ v, v ⊘ INR div ⊗ delta) <$> y
      else (λ v, v ⊗ step) <$> y
    else (λ v, v ⊗ delta) <$> y in
  let y := (λ v, v ⊕ start) <$> y in
  if (1 <? num)%nat then <[(num - 1)%nat := stop]> y else y.

(** Lines 81-84. *)
Definition grid (half_cosine_spacing : bool) (N : Z) : list R :=
  if half_cosine_spacing then
    (λ v, (1 ⊖ fl_cos A v) ⊘ 2) <$> linspace 0 (fl_pi A) (Z.to_nat N)
  else linspace 0 1 (Z.to_nat N).

(** Lines 89-96. *)
Definition thickness_distribution (closed_trailing_edge : bool) (t : R)
    (x : list R) : list R :=
  if closed_trailing_edge then
    (λ x, t ⊘ #0.20 ⊗ (#0.29690 ⊗ fl_sqrt A x ⊖ #0.12600 ⊗ x
                       ⊖ #0.35160 ⊗ fl_power A x 2
                       ⊕ #0.28430 ⊗ fl_power A x 3
                       ⊖ #0.10360 ⊗ fl_power A x 4)) <$> x
  else
    (λ x, t ⊘ #0.20 ⊗ (#0.29690 ⊗ fl_sqrt A x ⊖ #0.12600 ⊗ x
                       ⊖ #0.35160 ⊗ fl_power A x 2
                       ⊕ #0.28430 ⊗ fl_power A x 3
                       ⊖ #0.10150 ⊗ fl_power A x 4)) <$> x.

(** Lines 100-109. *)
Definition camber_line (m p : R) (x : list R) : list R :=
  let fwd_x := filter (λ v, v < p) x in
  let aft_x := filter (λ v, v >= p) x in
  if decide ((0 < p ∧ p < 1) ∧ (0 < m ∧ m < 1)) then
    let fwd_camber :=
      (λ v, m ⊘ fl_pow A p 2 ⊗ (2 ⊗ p ⊗ v ⊖ fl_power A v 2)) <$> fwd_x in
    let aft_camber :=
      (λ v, m ⊘ fl_pow A (1 ⊖ p) 2
            ⊗ ((1 ⊖ 2 ⊗ p) ⊕ 2 ⊗ p ⊗ v ⊖ fl_power A v 2)) <$> aft_x in
    Np.append fwd_camber aft_camber
  else Np.zeros (length x).

(** Lines 61-130. *)
Definition NACA4_coordinates (number : string) (N : Z)
    (half_cosine_spacing closed_trailing_edge : bool) : result (list (R * R)) :=
  n ← Py.int number;
  if negb ((0 <? n)%Z && (n <? 10000)%Z && (N >? 0)%Z)
  then Raise ValueError_invalid_input
  else
    '(m, p, t) ← decode number;
    let x := grid half_cosine_spacing N in
    let thickness := thickness_distribution closed_trailing_edge t x in
    let camber := camber_line m p x in
    y_upper ← Np.broadcast (fl_add A) camber thickness;
    y_lower ← Np.broadcast (fl_sub A) camber thickness;
    let x_upper := Np.flipud x in
    let x_lower := drop 1 x in
    let x := Np.append x_upper x_lower in
    y ← join_surfaces closed_trailing_edge y_upper y_lower;
    Np.column_stack x y.

(** The whole function. *)
Definition NACA4 (number : string) (N : Z)
    (half_cosine_spacing closed_trailing_edge save_to_file : bool)
    (fs : gmap string string) : result (list (R * R)) * gmap string string :=
  match NACA4_coordinates number N half_cosine_spacing closed_trailing_edge with
  | Ok coordinates =>
      (Ok coordinates,
       if save_to_file then
         Np.savetxt ("NACA " +:+ number +:+ ".dat") coordinates
           ("NACA " +:+ number) fs
       else fs)
  | Raise e => (Raise e, fs)
  end.

End Arithmetic.
End Fl.

(** ** Reading designators *)

Section Characters.
Import Py.

Lemma digit_is_plain (c : ascii) :
  is_digit c = true →
  is_space c = false ∧ Ascii.eqb c "+" = false
  ∧ Ascii.eqb c "-" = false ∧ Ascii.eqb c "_" = false.
Proof.
  destruct c as [[] [] [] [] [] [] [] []]; vm_compute; intros H;
    repeat split; congruence.
Qed.

Lemma digit_val_range (c : ascii) :
  is_digit c = true → (0 <= digit_val c <= 9)%Z.
Proof.
  destruct c as [[] [] [] [] [] [] [] []]; vm_compute; intros H;
    split; congruence.
Qed.

Lemma strip_digit (c : ascii) : is_digit c = true → strip [c] = [c].
Proof.
  intros H. apply digit_is_plain in H as (Hs & _).
  unfold strip. simpl. rewrite Hs. simpl. now rewrite Hs.
Qed.

Lemma integer_literal_digit (c : ascii) :
  is_digit c = true →
  integer_literal (String c EmptyString) = Some (digit_val c).
Proof.
  intros H. unfold integer_literal. simpl list_ascii_of_string.
  rewrite strip_digit by assumption.
  destruct (digit_is_plain c H) as (_ & Hp & Hm & _).
  unfold signed_literal. rewrite Hp, Hm. simpl. now rewrite H.
Qed.

Lemma float_digit (c : ascii) :
  is_digit c = true → float (String c EmptyString) = Ok (IZR (digit_val c)).
Proof.
  intros H. unfold float. now rewrite integer_literal_digit.
Qed.

Lemma slice_from_2 (c0 c1 : ascii) (rest : string) :
  slice_from (String c0 (String c1 rest)) 2 = rest.
Proof.
  unfold slice_from. simpl. apply string_of_list_ascii_of_string.
Qed.

End Characters.

(** [float] is only ever applied to pieces of a string [int] has accepted;
    such a string holds white space, signs, digits and underscores only. *)
Lemma more_digits_chars (n : nat) (l : list ascii) (acc z : Z) :
  (length l ≤ n)%nat → Py.more_digits l acc = Some z →
  Forall (λ c, literal_char c = true) l.
Proof.
  revert l acc. induction n as [|n IH]; intros l acc Hn H.
  - destruct l; [constructor|simpl in Hn; lia].
  - destruct l as [|c l]; [constructor|]. simpl in H, Hn.
    destruct (Py.is_digit c) eqn:Hc.
    + constructor.
      * unfold literal_char. rewrite Hc. now rewrite orb_true_r.
      * apply (IH l _ ltac:(lia) H).
    + destruct (Ascii.eqb c "_") eqn:Hu; [|discriminate].
      destruct l as [|d l]; [discriminate|].
      destruct (Py.is_digit d) eqn:Hd; [|discriminate].
      simpl in Hn. repeat constructor.
      * unfold literal_char. rewrite Hu. now rewrite !orb_true_r.
      * unfold literal_char. rewrite Hd. now rewrite orb_true_r.
      * apply (IH l _ ltac:(lia) H).
Qed.

Lemma signed_literal_chars (l : list ascii) (z : Z) :
  Py.signed_literal l = Some z → Forall (λ c, literal_char c = true) l.
Proof.
  assert (Hu : ∀ k v, Py.unsigned_literal k = Some v →
                      Forall (λ c, literal_char c = true) k).
  { intros [|c k] v H; [constructor|]. simpl in H.
    destruct (Py.is_digit c) eqn:Hc; [|discriminate]. constructor.
    - unfold literal_char. rewrite Hc. now rewrite orb_true_r.
    - eapply more_digits_chars; [reflexivity|exact H]. }
  destruct l as [|c l]; [constructor|]. unfold Py.signed_literal.
  destruct (Ascii.eqb c "+") eqn:Hp.
  - intros H. constructor; [|now apply (Hu l z)].
    unfold literal_char. rewrite Hp. now rewrite !orb_true_r.
  - destruct (Ascii.eqb c "-") eqn:Hm; [|apply Hu].
    intros H. destruct (Py.unsigned_literal l) as [v|] eqn:Hv; [|discriminate].
    constructor; [|now apply (Hu l v)].
    unfold literal_char. rewrite Hm. now rewrite !orb_true_r.
Qed.

Lemma lstrip_Forall (P : ascii → Prop) (l : list ascii) :
  (∀ c, Py.is_space c = true → P c) → Forall P (Py.lstrip l) → Forall P l.
Proof.
  intros Hs. induction l as [|c l IH]; [trivial|]. simpl.
  destruct (Py.is_space c) eqn:Hc; [|trivial].
  intros H. constructor; [now apply Hs|now apply IH].
Qed.

Lemma integer_literal_chars (s : string) (z : Z) :
  Py.integer_literal s = Some z →
  Forall (λ c, literal_char c = true) (list_ascii_of_string s).
Proof.
  unfold Py.integer_literal, Py.strip. intros H.
  apply signed_literal_chars in H.
  assert (Hs : ∀ c, Py.is_space c = true → literal_char c = true).
  { intros c Hc. unfold literal_char. now rewrite Hc. }
  apply Forall_rev in H. rewrite rev_involutive in H.
  apply (lstrip_Forall _ _ Hs) in H.
  apply Forall_rev in H. rewrite rev_involutive in H.
  now apply (lstrip_Forall _ _ Hs) in H.
Qed.

(** The decode step on a string with two leading digits. *)
Lemma decode_digits (c0 c1 : ascii) (rest : string) (z : Z) :
  Py.is_digit c0 = true → Py.is_digit c1 = true →
  Py.integer_literal rest = Some z →
  decode (String c0 (String c1 rest))
  = Ok (IZR (Py.digit_val c0) / 100, IZR (Py.digit_val c1) / 10, IZR z / 100).
Proof.
  intros H0 H1 Hz. unfold decode.
  unfold Py.index. simpl String.get. cbn [mbind result_bind].
  rewrite (float_digit c0 H0). cbn [mbind result_bind].
  rewrite (float_digit c1 H1). cbn [mbind result_bind].
  rewrite slice_from_2. unfold Py.float. rewrite Hz.
  cbn [mbind result_bind mret result_ret].
  repeat f_equal.
  - destruct (decide (IZR (Py.digit_val c0) ≠ 0)) as [|E]; [reflexivity|].
    apply dec_stable in E. rewrite E. lra.
  - destruct (decide (IZR (Py.digit_val c1) ≠ 0)) as [|E]; [reflexivity|].
    apply dec_stable in E. rewrite E. lra.
  - destruct (decide (IZR z ≠ 0)) as [|E]; [reflexivity|].
    apply dec_stable in E. rewrite E. lra.
Qed.

(** A decodable designator decodes, and its fields lie in the printed
    ranges. *)
Lemma decodable_decode (number : string) :
  decodable number = true →
  ∃ m p t, decode number = Ok (m, p, t) ∧ 0 <= m < 1 ∧ 0 <= p < 1.
Proof.
  unfold decodable. destruct number as [|c0 [|c1 rest]]; simpl; try discriminate.
  intros H. apply andb_true_iff in H as [H H2]. apply andb_true_iff in H as [H0 H1].
  apply bool_decide_eq_true in H2 as [z Hz].
  exists (IZR (Py.digit_val c0) / 100), (IZR (Py.digit_val c1) / 10), (IZR z / 100).
  split; [now apply decode_digits|].
  pose proof (digit_val_range c0 H0) as [A0 B0].
  pose proof (digit_val_range c1 H1) as [A1 B1].
  apply IZR_le in A0, B0, A1, B1. lra.
Qed.

(** ** The sample grid *)

Lemma linspace_length (a b : R) (n : nat) : length (Np.linspace a b n) = n.
Proof.
  unfold Np.linspace.
  repeat case_match; rewrite ?length_insert, !length_fmap; apply length_seq.
Qed.

Lemma linspace_lookup (a b : R) (n i : nat) :
  (2 ≤ n)%nat → (i < n)%nat →
  Np.linspace a b n !! i = Some (a + INR i * (b - a) / INR (n - 1)).
Proof.
  intros Hn Hi. unfold Np.linspace.
  assert (Hd : INR (n - 1) ≠ 0) by (apply not_0_INR; lia).
  replace (0 <? n - 1)%nat with true by (symmetry; apply Nat.ltb_lt; lia).
  replace (1 <? n)%nat with true by (symmetry; apply Nat.ltb_lt; lia).
  destruct (decide (i = (n - 1)%nat)) as [->|Hne].
  - rewrite list_lookup_insert_eq.
    + f_equal. field. exact Hd.
    + case_match; rewrite !length_fmap, length_seq; lia.
  - rewrite list_lookup_insert_ne by congruence.
    case_match; rewrite !list_lookup_fmap, lookup_seq_lt by lia; simpl;
      f_equal; field; exact Hd.
Qed.

Lemma linspace_one (a b : R) : Np.linspace a b 1 = [a].
Proof.
  unfold Np.linspace. simpl. f_equal. lra.
Qed.

Lemma grid_length (hcs : bool) (N : Z) : length (grid hcs N) = Z.to_nat N.
Proof.
  unfold grid. destruct hcs; rewrite ?length_fmap; apply linspace_length.
Qed.

Lemma INR_pred_to_nat (N : Z) : (1 <= N)%Z → INR (Z.to_nat N - 1) = IZR (N - 1).
Proof.
  intros H. rewrite INR_IZR_INZ. f_equal. lia.
Qed.

Lemma grid_lookup (hcs : bool) (N : Z) (i : nat) :
  (2 <= N)%Z → (i < Z.to_nat N)%nat →
  grid hcs N !! i = Some (spec_station hcs N i).
Proof.
  intros HN Hi. unfold grid, spec_station.
  assert (Hd : IZR (N - 1) ≠ 0) by (apply not_0_IZR; lia).
  destruct hcs.
  - rewrite list_lookup_fmap, linspace_lookup by lia. simpl.
    unfold spec_half_cosine_station. rewrite INR_pred_to_nat by lia.
    replace (0 + INR i * (PI - 0) / IZR (N - 1))
      with (PI * INR i / IZR (N - 1)) by (field; exact Hd).
    reflexivity.
  - rewrite linspace_lookup by lia. unfold spec_linear_station.
    rewrite INR_pred_to_nat by lia. f_equal. field. exact Hd.
Qed.

Lemma grid_one (hcs : bool) : grid hcs 1 = [0].
Proof.
  unfold grid. change (Z.to_nat 1) with 1%nat. rewrite !linspace_one.
  destruct hcs; [|reflexivity]. simpl. rewrite cos_0. f_equal. lra.
Qed.

Lemma spec_station_increasing (hcs : bool) (N : Z) (i j : nat) :
  (2 <= N)%Z → (i < j)%nat → (j < Z.to_nat N)%nat →
  spec_station hcs N i < spec_station hcs N j.
Proof.
  intros HN Hij Hj.
  assert (Hd : 0 < IZR (N - 1)) by (apply IZR_lt; lia).
  assert (Hi' : 0 <= INR i) by apply pos_INR.
  assert (Hij' : INR i < INR j) by (apply lt_INR; lia).
  assert (Hj' : INR j <= IZR (N - 1)).
  { rewrite <- INR_pred_to_nat by lia. apply le_INR. lia. }
  assert (Hinv : 0 < / IZR (N - 1)) by now apply Rinv_0_lt_compat.
  destruct hcs; simpl.
  - unfold spec_half_cosine_station.
    pose proof PI_RGT_0 as Hpi.
    assert (Hlt : PI * INR i / IZR (N - 1) < PI * INR j / IZR (N - 1)).
    { unfold Rdiv. apply Rmult_lt_compat_r; [assumption|].
      apply Rmult_lt_compat_l; assumption. }
    assert (H0 : 0 <= PI * INR i / IZR (N - 1)).
    { unfold Rdiv. apply Rmult_le_pos; [apply Rmult_le_pos|]; lra. }
    assert (H1 : PI * INR j / IZR (N - 1) <= PI).
    { unfold Rdiv. rewrite Rmult_assoc. rewrite <- (Rmult_1_r PI) at 2.
      apply Rmult_le_compat_l; [lra|].
      apply (Rmult_le_reg_r (IZR (N - 1))); [assumption|].
      rewrite Rmult_assoc, Rinv_l by lra. lra. }
    assert (H2 : PI * INR i / IZR (N - 1) <= PI) by lra.
    assert (H3 : 0 <= PI * INR j / IZR (N - 1)) by lra.
    pose proof (cos_decreasing_1 _ _ H0 H2 H3 H1 Hlt). lra.
  - unfold spec_linear_station, Rdiv.
    apply Rmult_lt_compat_r; assumption.
Qed.

(** The grid is strictly increasing, whatever the spacing and the count. *)
Lemma grid_increasing (hcs : bool) (N : Z) (i j : nat) (xi xj : R) :
  (i < j)%nat → grid hcs N !! i = Some xi → grid hcs N !! j = Some xj →
  xi < xj.
Proof.
  intros Hij Hi Hj.
  assert (Hjn : (j < Z.to_nat N)%nat).
  { rewrite <- (grid_length hcs). eapply lookup_lt_Some; eassumption. }
  assert (HN : (2 <= N)%Z) by lia.
  rewrite grid_lookup in Hi, Hj by lia.
  injection Hi as <-. injection Hj as <-.
  now apply spec_station_increasing.
Qed.

Lemma grid_first (hcs : bool) (N : Z) : (0 < N)%Z → grid hcs N !! 0%nat = Some 0.
Proof.
  intros HN. destruct (Z.eq_dec N 1%Z) as [->|Hne].
  - now rewrite grid_one.
  - rewrite grid_lookup by lia. f_equal.
    destruct hcs; simpl.
    + unfold spec_half_cosine_station. simpl INR.
      replace (PI * 0 / IZR (N - 1)) with 0 by (unfold Rdiv; ring).
      rewrite cos_0. lra.
    + unfold spec_linear_station. simpl INR. unfold Rdiv. ring.
Qed.

Lemma grid_last (hcs : bool) (N : Z) :
  (2 <= N)%Z → grid hcs N !! (Z.to_nat N - 1)%nat = Some 1.
Proof.
  intros HN. rewrite grid_lookup by lia. f_equal.
  assert (Hd : IZR (N - 1) ≠ 0) by (apply not_0_IZR; lia).
  destruct hcs; simpl.
  - unfold spec_half_cosine_station. rewrite INR_pred_to_nat by lia.
    replace (PI * IZR (N - 1) / IZR (N - 1)) with PI by (field; exact Hd).
    rewrite cos_PI. lra.
  - unfold spec_linear_station. rewrite INR_pred_to_nat by lia.
    field. exact Hd.
Qed.

Lemma grid_bounds (hcs : bool) (N : Z) (i : nat) (xi : R) :
  grid hcs N !! i = Some xi → 0 <= xi <= 1.
Proof.
  intros Hi.
  assert (Hin : (i < Z.to_nat N)%nat).
  { rewrite <- (grid_length hcs). eapply lookup_lt_Some; eassumption. }
  destruct (Z.eq_dec N 1%Z) as [->|Hne].
  - rewrite grid_one in Hi. destruct i; simpl in Hi; [|discriminate].
    injection Hi as <-. lra.
  - assert (HN : (2 <= N)%Z) by lia.
    pose proof (grid_first hcs N ltac:(lia)) as H0.
    pose proof (grid_last hcs N HN) as H1.
    split.
    + destruct (decide (i = 0%nat)) as [->|].
      * rewrite H0 in Hi. injection Hi as <-. lra.
      * left. eapply (grid_increasing hcs N 0 i); eauto. lia.
    + destruct (decide (i = (Z.to_nat N - 1)%nat)) as [->|].
      * rewrite H1 in Hi. injection Hi as <-. lra.
      * left. eapply (grid_increasing hcs N i (Z.to_nat N - 1)); eauto. lia.
Qed.

(** ** Thickness and camber at a station *)

Lemma increasing_tail (h : R) (x : list R) : increasing (h :: x) → increasing x.
Proof.
  intros H i j xi xj Hij Hi Hj. apply (H (S i) (S j)); [lia|exact Hi|exact Hj].
Qed.

Lemma grid_is_increasing (hcs : bool) (N : Z) : increasing (grid hcs N).
Proof. intros i j xi xj. apply grid_increasing. Qed.

Lemma thickness_distribution_spec (cte : bool) (t : R) (x : list R) :
  thickness_distribution cte t x = spec_thickness (spec_c4 cte) t <$> x.
Proof. destruct cte; reflexivity. Qed.

Lemma thickness_length (cte : bool) (t : R) (x : list R) :
  length (thickness_distribution cte t x) = length x.
Proof. rewrite thickness_distribution_spec. apply length_fmap. Qed.

Lemma masks_length (p : R) (x : list R) :
  (length (filter (λ v : R, (v < p)%R) x)
   + length (filter (λ v : R, (v >= p)%R) x))%nat
  = length x.
Proof.
  induction x as [|h x IH]; [reflexivity|].
  destruct (Rlt_dec h p) as [Hlt|Hge].
  - rewrite filter_cons_True by exact Hlt.
    rewrite filter_cons_False by lra. simpl. lia.
  - rewrite filter_cons_False by exact Hge.
    rewrite filter_cons_True by lra. simpl. lia.
Qed.

Lemma masks_all_aft (p : R) (x : list R) :
  Forall (λ v, v >= p) x →
  filter (λ v, v < p) x = [] ∧ filter (λ v, v >= p) x = x.
Proof.
  induction 1 as [|h x Hh Hx [IH1 IH2]]; [split; reflexivity|].
  rewrite filter_cons_False by lra. rewrite filter_cons_True by exact Hh.
  split; congruence.
Qed.

(** On an increasing array the two masked pieces, put back together, line
    up with the stations they came from. *)
Lemma masks_lookup (f g : R → R) (p : R) (x : list R) :
  increasing x →
  ∀ i xi, x !! i = Some xi →
    ((f <$> filter (λ v, v < p) x) ++ (g <$> filter (λ v, v >= p) x)) !! i
    = Some (if decide (xi < p) then f xi else g xi).
Proof.
  induction x as [|h x IH]; intros Hinc i xi Hi; [discriminate|].
  destruct (Rlt_dec h p) as [Hlt|Hge].
  - rewrite filter_cons_True by exact Hlt.
    rewrite filter_cons_False by lra.
    destruct i as [|i]; simpl in *.
    + injection Hi as <-. now rewrite decide_True.
    + apply IH; [eapply increasing_tail; eassumption|exact Hi].
  - assert (Hall : Forall (λ v, v >= p) (h :: x)).
    { apply Forall_lookup_2. intros j xj Hj.
      destruct j as [|j]; simpl in Hj.
      - injection Hj as <-. lra.
      - pose proof (Hinc 0%nat (S j) h xj ltac:(lia) eq_refl Hj). lra. }
    destruct (masks_all_aft p _ Hall) as [-> ->].
    rewrite fmap_nil, app_nil_l, list_lookup_fmap, Hi. simpl.
    assert (xi >= p).
    { eapply (proj1 (Forall_lookup _ _) Hall); eassumption. }
    now rewrite decide_False by lra.
Qed.

Lemma camber_length (m p : R) (x : list R) :
  length (camber_line m p x) = length x.
Proof.
  unfold camber_line, Np.append, Np.zeros. case_decide.
  - rewrite length_app, !length_fmap. apply masks_length.
  - apply length_replicate.
Qed.

Lemma camber_lookup (m p : R) (x : list R) (i : nat) (xi : R) :
  increasing x → x !! i = Some xi →
  camber_line m p x !! i = Some (spec_camber m p xi).
Proof.
  intros Hinc Hi. unfold camber_line, spec_camber, Np.append, Np.zeros.
  case_decide.
  - now rewrite (masks_lookup _ _ p x Hinc i xi Hi).
  - apply lookup_replicate_2. eapply lookup_lt_Some; eassumption.
Qed.

(** ** The assembled loop *)

Lemma broadcast_same_length (f : R → R → R) (a b : list R) :
  length a = length b → Np.broadcast f a b = Ok (zip_with f a b).
Proof.
  intros H. unfold Np.broadcast.
  now replace (length a =? length b)%nat with true
    by (symmetry; apply Nat.eqb_eq; exact H).
Qed.

Lemma closed_ends_length (cte : bool) (y : list R) :
  length (closed_ends cte y) = length y.
Proof. destruct cte; simpl; [now rewrite !length_insert|reflexivity]. Qed.

Lemma join_surfaces_ok (cte : bool) (yU yL : list R) :
  (0 < length yU)%nat →
  join_surfaces cte yU yL = Ok (closed_ends cte (reverse yU ++ drop 1 yL)).
Proof.
  intros H. unfold join_surfaces, closed_ends, Np.flipud, Np.append.
  destruct cte; [|reflexivity].
  assert (Hl : (0 <? length (reverse yU ++ drop 1 yL))%nat = true).
  { apply Nat.ltb_lt. rewrite length_app, length_reverse. lia. }
  unfold Np.set_first. rewrite Hl. cbn [mbind result_bind].
  unfold Np.set_last. now rewrite length_insert, Hl.
Qed.

Lemma upper_surface_length (m p t : R) (cte : bool) (x : list R) :
  length (upper_surface m p t cte x) = length x.
Proof.
  unfold upper_surface.
  rewrite length_zip_with, camber_length, thickness_length. lia.
Qed.

Lemma lower_surface_length (m p t : R) (cte : bool) (x : list R) :
  length (lower_surface m p t cte x) = length x.
Proof.
  unfold lower_surface.
  rewrite length_zip_with, camber_length, thickness_length. lia.
Qed.

Lemma loop_x_length (x : list R) :
  length (loop_x x) = (length x + (length x - 1))%nat.
Proof. unfold loop_x. now rewrite length_app, length_reverse, length_drop. Qed.

Lemma loop_y_length (m p t : R) (cte : bool) (x : list R) :
  length (loop_y m p t cte x) = (length x + (length x - 1))%nat.
Proof.
  unfold loop_y.
  now rewrite closed_ends_length, length_app, length_reverse, length_drop,
    upper_surface_length, lower_surface_length.
Qed.

Lemma in_range_spec (number : string) :
  in_range number = true
  ↔ ∃ n, Py.integer_literal number = Some n ∧ (0 < n < 10000)%Z.
Proof.
  unfold in_range. split.
  - destruct (Py.integer_literal number) as [n|]; [|discriminate].
    intros H. apply andb_true_iff in H as [H1 H2].
    exists n. split; [reflexivity|lia].
  - intros (n & -> & H). apply andb_true_iff. split; lia.
Qed.

(** What [NACA4] computes once validation and decoding have succeeded. *)
Lemma NACA4_coordinates_decoded (number : string) (N : Z) (hcs cte : bool)
    (m p t : R) :
  in_range number = true → (0 < N)%Z → decode number = Ok (m, p, t) →
  NACA4_coordinates number N hcs cte
  = Ok (zip (loop_x (grid hcs N)) (loop_y m p t cte (grid hcs N))).
Proof.
  intros Hr HN Hd. apply in_range_spec in Hr as (n & Hn & Hrange).
  unfold NACA4_coordinates, Py.int. rewrite Hn. cbn [mbind result_bind].
  replace ((0 <? n)%Z && (n <? 10000)%Z && (N >? 0)%Z) with true
    by (symmetry; rewrite !andb_true_iff; lia).
  cbn [negb]. rewrite Hd. cbn [mbind result_bind].
  unfold Np.add, Np.subtract.
  rewrite !broadcast_same_length
    by now rewrite camber_length, thickness_length.
  cbn [mbind result_bind].
  rewrite join_surfaces_ok.
  - cbn [mbind result_bind]. unfold Np.column_stack, Np.flipud, Np.append.
    fold (loop_x (grid hcs N)).
    fold (upper_surface m p t cte (grid hcs N)).
    fold (lower_surface m p t cte (grid hcs N)).
    fold (loop_y m p t cte (grid hcs N)).
    rewrite loop_x_length, loop_y_length, Nat.eqb_refl. reflexivity.
  - rewrite length_zip_with, camber_length, thickness_length, grid_length. lia.
Qed.

(** The validation step alone decides whether a validation error is
    raised. *)
Lemma NACA4_coordinates_rejected (number : string) (N : Z) (hcs cte : bool) :
  in_range number = false ∨ (N <= 0)%Z →
  ∃ e, NACA4_coordinates number N hcs cte = Raise e ∧ validation_error e = true.
Proof.
  intros H. unfold NACA4_coordinates, Py.int, in_range in *.
  destruct (Py.integer_literal number) as [n|].
  - cbn [mbind result_bind].
    replace ((0 <? n)%Z && (n <? 10000)%Z && (N >? 0)%Z) with false.
    + eexists. split; reflexivity.
    + symmetry. apply andb_false_iff. destruct H as [H|H].
      * left. exact H.
      * right. lia.
  - eexists. split; reflexivity.
Qed.

Lemma decode_error_kind (number : string) (e : exn) :
  decode number = Raise e → validation_error e = false.
Proof.
  unfold decode, Py.index, Py.float.
  repeat (case_match; cbn [mbind result_bind mret result_ret]);
    intros [= <-]; reflexivity.
Qed.

Lemma NACA4_coordinates_undecoded (number : string) (N : Z) (hcs cte : bool)
    (e : exn) :
  in_range number = true → (0 < N)%Z → decode number = Raise e →
  NACA4_coordinates number N hcs cte = Raise e.
Proof.
  intros Hr HN Hd. apply in_range_spec in Hr as (n & Hn & Hrange).
  unfold NACA4_coordinates, Py.int. rewrite Hn. cbn [mbind result_bind].
  replace ((0 <? n)%Z && (n <? 10000)%Z && (N >? 0)%Z) with true
    by (symmetry; rewrite !andb_true_iff; lia).
  cbn [negb]. now rewrite Hd.
Qed.

(** ** Reading the loop by station *)

Section LoopLookup.
Context {A : Type}.
Implicit Types u l : list A.

(** Station [i] of the upper surface sits [i] places before the leading
    edge. *)
Lemma loop_lookup_upper u l (i : nat) :
  (i < length u)%nat →
  (reverse u ++ drop 1 l) !! (length u - 1 - i)%nat = u !! i.
Proof.
  intros Hi. rewrite lookup_app_l by (rewrite length_reverse; lia).
  rewrite reverse_lookup by lia. f_equal. lia.
Qed.

(** Station [i ≥ 1] of the lower surface sits [i] places after it. *)
Lemma loop_lookup_lower u l (i : nat) :
  (1 ≤ i)%nat → (0 < length u)%nat →
  (reverse u ++ drop 1 l) !! (length u - 1 + i)%nat = l !! i.
Proof.
  intros Hi Hu. rewrite lookup_app_r by (rewrite length_reverse; lia).
  rewrite length_reverse, lookup_drop. f_equal. lia.
Qed.
End LoopLookup.

Lemma closed_ends_inner (cte : bool) (y : list R) (k : nat) :
  (0 < k)%nat → (k < length y - 1)%nat → closed_ends cte y !! k = y !! k.
Proof.
  intros H0 H1. destruct cte; [|reflexivity]. simpl.
  rewrite !list_lookup_insert_ne by lia. reflexivity.
Qed.

Lemma closed_ends_first (y : list R) :
  (0 < length y)%nat → closed_ends true y !! 0%nat = Some 0.
Proof.
  intros H. simpl. destruct (decide (length y - 1 = 0)%nat) as [E|E].
  - rewrite E. apply list_lookup_insert_eq. rewrite length_insert. lia.
  - rewrite list_lookup_insert_ne by lia. now apply list_lookup_insert_eq.
Qed.

Lemma closed_ends_last (y : list R) :
  (0 < length y)%nat → closed_ends true y !! (length y - 1)%nat = Some 0.
Proof.
  intros H. simpl. apply list_lookup_insert_eq. rewrite length_insert. lia.
Qed.

Lemma upper_surface_lookup (m p t : R) (cte : bool) (x : list R) (i : nat)
    (xi : R) :
  increasing x → x !! i = Some xi →
  upper_surface m p t cte x !! i
  = Some (spec_camber m p xi + spec_thickness (spec_c4 cte) t xi).
Proof.
  intros Hinc Hi. unfold upper_surface.
  rewrite lookup_zip_with, (camber_lookup m p x i xi Hinc Hi).
  rewrite thickness_distribution_spec, list_lookup_fmap, Hi. reflexivity.
Qed.

Lemma lower_surface_lookup (m p t : R) (cte : bool) (x : list R) (i : nat)
    (xi : R) :
  increasing x → x !! i = Some xi →
  lower_surface m p t cte x !! i
  = Some (spec_camber m p xi - spec_thickness (spec_c4 cte) t xi).
Proof.
  intros Hinc Hi. unfold lower_surface.
  rewrite lookup_zip_with, (camber_lookup m p x i xi Hinc Hi).
  rewrite thickness_distribution_spec, list_lookup_fmap, Hi. reflexivity.
Qed.

(** At the leading edge both distributions vanish. *)
Lemma spec_thickness_leading_edge (c4 t : R) : spec_thickness c4 t 0 = 0.
Proof. unfold spec_thickness. rewrite sqrt_0. lra. Qed.

Lemma spec_camber_leading_edge (m p : R) : spec_camber m p 0 = 0.
Proof.
  unfold spec_camber. case_decide as H; [|reflexivity].
  rewrite decide_True by lra. lra.
Qed.

(** With the closing coefficient the thickness vanishes at the trailing
    edge, and so does the camber. *)
Lemma spec_thickness_trailing_edge (t : R) : spec_thickness (spec_c4 true) t 1 = 0.
Proof. unfold spec_thickness, spec_c4. rewrite sqrt_1. lra. Qed.

Lemma spec_camber_trailing_edge (m p : R) : spec_camber m p 1 = 0.
Proof.
  unfold spec_camber. case_decide as H; [|reflexivity].
  rewrite decide_False by lra.
  replace (1 - 2 * p + 2 * p * 1 - 1 ^ 2) with 0 by lra. lra.
Qed.

(** ** Properties of [NACA4] *)

Lemma valid_designator_decodes (number : string) :
  valid_designator number = true →
  in_range number = true
  ∧ ∃ m p t, decode number = Ok (m, p, t) ∧ 0 <= m < 1 ∧ 0 <= p < 1.
Proof.
  unfold valid_designator. intros H. apply andb_true_iff in H as [H1 H2].
  split; [exact H1|]. now apply decodable_decode.
Qed.

Lemma NACA4_coordinates_length (number : string) (N : Z) (hcs cte : bool)
    (m p t : R) :
  Z.of_nat (length (zip (loop_x (grid hcs N)) (loop_y m p t cte (grid hcs N))))
  = Z.max 0 (2 * Z.max 0 N - 1).
Proof.
  rewrite length_zip_with, loop_x_length, loop_y_length, grid_length. lia.
Qed.

Lemma digit_val_zero (c : ascii) :
  Py.is_digit c = true → Py.digit_val c = 0%Z → c = "0"%char.
Proof.
  destruct c as [[] [] [] [] [] [] [] []]; vm_compute; intros H E;
    congruence.
Qed.

(** The integer a string of four digits denotes. *)
Lemma four_digits_integer_literal (c0 c1 c2 c3 : ascii) :
  Py.is_digit c0 = true → Py.is_digit c1 = true →
  Py.is_digit c2 = true → Py.is_digit c3 = true →
  Py.signed_literal (Py.strip [c0; c1; c2; c3])
  = Some (10 * (10 * (10 * Py.digit_val c0 + Py.digit_val c1)
                + Py.digit_val c2) + Py.digit_val c3)%Z.
Proof.
  intros H0 H1 H2 H3.
  destruct (digit_is_plain c0 H0) as (S0 & P0 & M0 & _).
  destruct (digit_is_plain c3 H3) as (S3 & _).
  unfold Py.strip. simpl. rewrite S0. simpl. rewrite S3. simpl.
  rewrite P0, M0, H0. simpl. now rewrite H1, H2, H3.
Qed.

Lemma two_digits_integer_literal (c2 c3 : ascii) :
  Py.is_digit c2 = true → Py.is_digit c3 = true →
  Py.signed_literal (Py.strip [c2; c3])
  = Some (10 * Py.digit_val c2 + Py.digit_val c3)%Z.
Proof.
  intros H2 H3.
  destruct (digit_is_plain c2 H2) as (S2 & P2 & M2 & _).
  destruct (digit_is_plain c3 H3) as (S3 & _).
  unfold Py.strip. simpl. rewrite S2. simpl. rewrite S3. simpl.
  rewrite P2, M2, H2. simpl. now rewrite H3.
Qed.

(** A designator of four digits other than ["0000"] is valid. *)
Lemma four_digits_valid (number : string) :
  four_digits number = true → number ≠ "0000" → valid_designator number = true.
Proof.
  unfold four_digits, valid_designator, in_range, decodable, Py.integer_literal.
  destruct number as [|c0 [|c1 [|c2 [|c3 [|]]]]]; simpl list_ascii_of_string;
    try discriminate.
  rewrite !andb_true_iff. intros [[[H0 H1] H2] H3] Hne.
  rewrite four_digits_integer_literal, two_digits_integer_literal by assumption.
  pose proof (digit_val_range c0 H0). pose proof (digit_val_range c1 H1).
  pose proof (digit_val_range c2 H2). pose proof (digit_val_range c3 H3).
  split; [|repeat split; try assumption;
            apply bool_decide_eq_true; eexists; reflexivity].
  apply andb_true_iff. split; [|lia]. apply Z.ltb_lt.
  destruct (Z.eq_dec (Py.digit_val c0) 0%Z) as [E0|]; [|lia].
  destruct (Z.eq_dec (Py.digit_val c1) 0%Z) as [E1|]; [|lia].
  destruct (Z.eq_dec (Py.digit_val c2) 0%Z) as [E2|]; [|lia].
  destruct (Z.eq_dec (Py.digit_val c3) 0%Z) as [E3|]; [|lia].
  apply digit_val_zero in E0, E1, E2, E3; try assumption. now subst.
Qed.

(** C1, as amended. For every designator that passes validation and that
    the decode step accepts, and every point count [N > 0], [NACA4] returns
    a sequence of exactly [2N - 1] coordinate pairs. *)
Theorem NACA4_point_count (number : string) (N : Z)
    (hcs cte save : bool) (fs : gmap string string) :
  valid_designator number = true → (0 < N)%Z →
  ∃ coordinates,
    (NACA4 number N hcs cte save fs).1 = Ok coordinates
    ∧ Z.of_nat (length coordinates) = (2 * N - 1)%Z.
Proof.
  intros Hv HN.
  destruct (valid_designator_decodes number Hv) as (Hr & m & p & t & Hd & _).
  unfold NACA4. rewrite (NACA4_coordinates_decoded _ _ _ _ _ _ _ Hr HN Hd).
  eexists. split; [reflexivity|].
  rewrite (NACA4_coordinates_length number). lia.
Qed.

Lemma NACA4_point_count_witness :
  valid_designator "2412" = true ∧ (0 < 50)%Z
  ∧ ∃ coordinates,
      (NACA4 "2412" 50 true true false ∅).1 = Ok coordinates
      ∧ Z.of_nat (length coordinates) = (2 * 50 - 1)%Z.
Proof.
  split; [reflexivity|]. split; [lia|].
  apply (NACA4_point_count "2412" 50 true true false ∅); [reflexivity|lia].
Defined.

(** C1, as stated, fails: ["12"] passes the validation of line 62, yet
    [float(number[2:])] raises on the empty remainder, so no sequence is
    returned. *)
Lemma NACA4_point_count_short_designator :
  in_range "12" = true ∧ (10 > 0)%Z
  ∧ (NACA4 "12" 10 true true false ∅).1 = Raise ValueError_float_literal.
Proof. split; [reflexivity|]. split; [lia|reflexivity]. Qed.

(** C2, as amended. [NACA4] raises a validation error exactly when the
    designator does not read as an integer strictly between 0 and 10000 or
    [N <= 0]; the error is raised before anything else happens (the flags
    play no part and no file is written); the three inputs the
    specification lists are rejected; and for every designator that passes
    validation and that the decode step accepts, with [N > 0] and no file
    requested, the call returns and leaves the file system as it was. *)
Theorem NACA4_validation (number : string) (N : Z)
    (hcs cte save : bool) (fs : gmap string string) :
  ((∃ e, (NACA4 number N hcs cte save fs).1 = Raise e
         ∧ validation_error e = true)
   ↔ (in_range number = false ∨ (N <= 0)%Z))
  ∧ (in_range number = false ∨ (N <= 0)%Z →
     (NACA4 number N hcs cte save fs).2 = fs
     ∧ ∀ hcs' cte' save',
         NACA4 number N hcs' cte' save' fs = NACA4 number N hcs cte save fs)
  ∧ (valid_designator number = true → (0 < N)%Z →
     ∃ coordinates, NACA4 number N hcs cte false fs = (Ok coordinates, fs))
  ∧ (NACA4 "0012" 0 hcs cte save fs).1 = Raise ValueError_invalid_input
  ∧ (NACA4 "99999" 10 hcs cte save fs).1 = Raise ValueError_invalid_input
  ∧ (NACA4 "-12" 10 hcs cte save fs).1 = Raise ValueError_invalid_input.
Proof.
  assert (Hrej : ∀ h c, in_range number = false ∨ (N <= 0)%Z →
            NACA4_coordinates number N h c
            = Raise (match Py.int number with
                     | Raise e => e
                     | Ok _ => ValueError_invalid_input
                     end)).
  { intros h c H. unfold NACA4_coordinates, Py.int, in_range in *.
    destruct (Py.integer_literal number) as [n|]; [|reflexivity].
    cbn [mbind result_bind].
    replace ((0 <? n)%Z && (n <? 10000)%Z && (N >? 0)%Z) with false;
      [reflexivity|].
    symmetry. apply andb_false_iff. destruct H as [H|H]; [left; exact H|].
    right. lia. }
  split; [split|split; [|split]].
  - intros (e & He & Hv).
    destruct (in_range number) eqn:Hr; [|now left].
    destruct (Z_le_gt_dec N 0) as [|HN]; [now right|]. exfalso.
    assert (HN' : (0 < N)%Z) by lia.
    unfold NACA4 in He.
    destruct (decode number) as [[[m p] t]|e'] eqn:Hd.
    + rewrite (NACA4_coordinates_decoded _ _ hcs cte _ _ _ Hr HN' Hd)
        in He. discriminate He.
    + rewrite (NACA4_coordinates_undecoded _ _ hcs cte _ Hr HN' Hd)
        in He. simpl in He. injection He as <-.
      rewrite (decode_error_kind _ _ Hd) in Hv. discriminate Hv.
  - intros H.
    destruct (NACA4_coordinates_rejected number N hcs cte H) as (e & He & Hv).
    exists e. unfold NACA4. rewrite He. split; [reflexivity|exact Hv].
  - intros H. unfold NACA4. rewrite (Hrej hcs cte H). split; [reflexivity|].
    intros h c s. now rewrite (Hrej h c H).
  - intros Hv HN.
    destruct (valid_designator_decodes number Hv) as (Hr & m & p & t & Hd & _).
    unfold NACA4. rewrite (NACA4_coordinates_decoded _ _ _ _ _ _ _ Hr HN Hd).
    eexists. reflexivity.
  - unfold NACA4. destruct hcs, cte; repeat split; reflexivity.
Qed.

(** C2, as stated, fails: ["5"] passes validation and the point count is
    positive, yet [number[1]] raises [IndexError]. *)
Lemma NACA4_validation_one_character :
  in_range "5" = true ∧ (10 > 0)%Z
  ∧ NACA4 "5" 10 true true false ∅ = (Raise IndexError_string, ∅).
Proof. split; [reflexivity|]. split; [lia|reflexivity]. Qed.

(** *** Points of the result, station by station *)

Lemma loop_x_upper (x : list R) (i : nat) :
  (i < length x)%nat → loop_x x !! (length x - 1 - i)%nat = x !! i.
Proof. apply loop_lookup_upper. Qed.

Lemma loop_x_lower (x : list R) (i : nat) :
  (1 ≤ i)%nat → (i < length x)%nat →
  loop_x x !! (length x - 1 + i)%nat = x !! i.
Proof. intros H1 H2. apply loop_lookup_lower; lia. Qed.

Lemma closed_ends_lookup (cte : bool) (y : list R) (k : nat) (v : R) :
  y !! k = Some v →
  closed_ends cte y !! k
  = Some (if cte && ((k =? 0)%nat || (k =? length y - 1)%nat) then 0 else v).
Proof.
  intros Hk. pose proof (lookup_lt_Some _ _ _ Hk) as Hlt.
  destruct cte; [|exact Hk]. cbn [andb].
  destruct (Nat.eqb_spec k 0) as [->|H0]; cbn [orb].
  - apply closed_ends_first. lia.
  - destruct (Nat.eqb_spec k (length y - 1)) as [->|H1].
    + apply closed_ends_last. lia.
    + rewrite closed_ends_inner by lia. exact Hk.
Qed.

Lemma loop_y_upper (m p t : R) (cte : bool) (x : list R) (i : nat) (xi : R) :
  increasing x → x !! i = Some xi →
  loop_y m p t cte x !! (length x - 1 - i)%nat
  = Some (closed_at cte (length x) i
            (spec_camber m p xi + spec_thickness (spec_c4 cte) t xi)).
Proof.
  intros Hinc Hi. pose proof (lookup_lt_Some _ _ _ Hi) as Hlt.
  unfold loop_y, closed_at.
  erewrite closed_ends_lookup.
  2:{ rewrite <- (upper_surface_length m p t cte x) at 1.
      rewrite loop_lookup_upper by (rewrite upper_surface_length; lia).
      exact (upper_surface_lookup m p t cte x i xi Hinc Hi). }
  rewrite length_app, length_reverse, length_drop, upper_surface_length,
    lower_surface_length.
  do 2 f_equal. f_equal.
  destruct (Nat.eqb_spec i (length x - 1)); 
  destruct (Nat.eqb_spec (length x - 1 - i) 0);
  destruct (Nat.eqb_spec (length x - 1 - i) (length x + (length x - 1) - 1));
    simpl; try reflexivity; lia.
Qed.

Lemma loop_y_lower (m p t : R) (cte : bool) (x : list R) (i : nat) (xi : R) :
  increasing x → (1 ≤ i)%nat → x !! i = Some xi →
  loop_y m p t cte x !! (length x - 1 + i)%nat
  = Some (closed_at cte (length x) i
            (spec_camber m p xi - spec_thickness (spec_c4 cte) t xi)).
Proof.
  intros Hinc H1 Hi. pose proof (lookup_lt_Some _ _ _ Hi) as Hlt.
  unfold loop_y, closed_at.
  erewrite closed_ends_lookup.
  2:{ rewrite <- (upper_surface_length m p t cte x) at 1.
      rewrite loop_lookup_lower by (rewrite ?upper_surface_length; lia).
      exact (lower_surface_lookup m p t cte x i xi Hinc Hi). }
  rewrite length_app, length_reverse, length_drop, upper_surface_length,
    lower_surface_length.
  do 2 f_equal. f_equal.
  destruct (Nat.eqb_spec i (length x - 1)); 
  destruct (Nat.eqb_spec (length x - 1 + i) 0);
  destruct (Nat.eqb_spec (length x - 1 + i) (length x + (length x - 1) - 1));
    simpl; try reflexivity; lia.
Qed.

(** The point of the upper surface at station [i]. *)
Lemma coordinates_upper (m p t : R) (cte : bool) (x : list R) (i : nat) (xi : R) :
  increasing x → x !! i = Some xi →
  zip (loop_x x) (loop_y m p t cte x) !! (length x - 1 - i)%nat
  = Some (xi, closed_at cte (length x) i
                (spec_camber m p xi + spec_thickness (spec_c4 cte) t xi)).
Proof.
  intros Hinc Hi. pose proof (lookup_lt_Some _ _ _ Hi) as Hlt.
  rewrite lookup_zip_with, loop_x_upper, Hi by exact Hlt. simpl.
  now rewrite (loop_y_upper m p t cte x i xi Hinc Hi).
Qed.

(** The point of the lower surface at station [i], from the first station
    after the leading edge on. *)
Lemma coordinates_lower (m p t : R) (cte : bool) (x : list R) (i : nat) (xi : R) :
  increasing x → (1 ≤ i)%nat → x !! i = Some xi →
  zip (loop_x x) (loop_y m p t cte x) !! (length x - 1 + i)%nat
  = Some (xi, closed_at cte (length x) i
                (spec_camber m p xi - spec_thickness (spec_c4 cte) t xi)).
Proof.
  intros Hinc H1 Hi. pose proof (lookup_lt_Some _ _ _ Hi) as Hlt.
  rewrite lookup_zip_with, loop_x_lower, Hi by lia. simpl.
  now rewrite (loop_y_lower m p t cte x i xi Hinc H1 Hi).
Qed.

(** The fields of a valid designator: its first character over 100, its
    second over 10, the number its remainder denotes over 100. *)
Lemma valid_designator_fields (number : string) :
  valid_designator number = true →
  ∃ c0 c1 rest z,
    number = String c0 (String c1 rest)
    ∧ Py.is_digit c0 = true ∧ Py.is_digit c1 = true
    ∧ Py.integer_literal (Py.slice_from number 2) = Some z
    ∧ in_range number = true
    ∧ decode number
      = Ok (IZR (Py.digit_val c0) / 100, IZR (Py.digit_val c1) / 10,
            IZR z / 100).
Proof.
  unfold valid_designator, decodable. intros H.
  apply andb_true_iff in H as [Hr H].
  destruct number as [|c0 [|c1 rest]]; simpl in H; try discriminate.
  apply andb_true_iff in H as [H H2]. apply andb_true_iff in H as [H0 H1].
  apply bool_decide_eq_true in H2 as [z Hz].
  exists c0, c1, rest, z. rewrite slice_from_2.
  repeat split; try assumption. now apply decode_digits.
Qed.

Lemma NACA4_valid (number : string) (N : Z) (hcs cte save : bool)
    (fs : gmap string string) (m p t : R) :
  valid_designator number = true → (0 < N)%Z → decode number = Ok (m, p, t) →
  (NACA4 number N hcs cte save fs).1
  = Ok (zip (loop_x (grid hcs N)) (loop_y m p t cte (grid hcs N))).
Proof.
  intros Hv HN Hd. destruct (valid_designator_decodes number Hv) as (Hr & _).
  unfold NACA4. now rewrite (NACA4_coordinates_decoded _ _ _ _ _ _ _ Hr HN Hd).
Qed.

Lemma grid_lookup_last (hcs : bool) (N : Z) :
  (0 < N)%Z → ∃ xn, grid hcs N !! (Z.to_nat N - 1)%nat = Some xn.
Proof.
  intros HN. apply lookup_lt_is_Some. rewrite grid_length. lia.
Qed.

(** In exact arithmetic the closing coefficient already brings both
    surfaces to 0 at the trailing edge: lines 126-128 change nothing. *)
Lemma closed_ends_exact (m p t : R) (hcs : bool) (N : Z) :
  (0 < N)%Z →
  loop_y m p t true (grid hcs N)
  = reverse (upper_surface m p t true (grid hcs N))
    ++ drop 1 (lower_surface m p t true (grid hcs N)).
Proof.
  intros HN. pose proof (grid_is_increasing hcs N) as Hinc.
  set (g := grid hcs N) in *.
  assert (Hg : length g = Z.to_nat N) by apply grid_length.
  assert (Hend : ∃ xn, g !! (Z.to_nat N - 1)%nat = Some xn
                       ∧ spec_camber m p xn = 0
                       ∧ spec_thickness (spec_c4 true) t xn = 0).
  { destruct (decide (Z.to_nat N = 1%nat)) as [E|E].
    - exists 0. rewrite E. split; [apply grid_first; exact HN|].
      split; [apply spec_camber_leading_edge|apply spec_thickness_leading_edge].
    - exists 1. split; [apply grid_last; lia|].
      split; [apply spec_camber_trailing_edge|apply spec_thickness_trailing_edge]. }
  destruct Hend as (xn & Hxn & Hc & Ht).
  set (raw := reverse (upper_surface m p t true g)
              ++ drop 1 (lower_surface m p t true g)).
  assert (Hlen : length raw = (Z.to_nat N + (Z.to_nat N - 1))%nat).
  { unfold raw. now rewrite length_app, length_reverse, length_drop,
      upper_surface_length, lower_surface_length, Hg. }
  assert (Hu : (0 < length (upper_surface m p t true g))%nat)
    by (rewrite upper_surface_length; lia).
  assert (Hfirst : raw !! 0%nat = Some 0).
  { pose proof (loop_lookup_upper (upper_surface m p t true g)
                  (lower_surface m p t true g) (Z.to_nat N - 1)) as X.
    rewrite upper_surface_length, Hg in X.
    replace (Z.to_nat N - 1 - (Z.to_nat N - 1))%nat with 0%nat in X by lia.
    unfold raw. rewrite X by lia.
    rewrite (upper_surface_lookup m p t true g _ _ Hinc Hxn), Hc, Ht.
    f_equal. lra. }
  assert (Hlast : raw !! (length raw - 1)%nat = Some 0).
  { destruct (decide (Z.to_nat N = 1%nat)) as [E|E].
    - rewrite Hlen, E. exact Hfirst.
    - pose proof (loop_lookup_lower (upper_surface m p t true g)
                    (lower_surface m p t true g) (Z.to_nat N - 1)) as X.
      rewrite upper_surface_length, Hg in X.
      replace (length raw - 1)%nat
        with (Z.to_nat N - 1 + (Z.to_nat N - 1))%nat by (rewrite Hlen; lia).
      unfold raw. rewrite X by lia.
      rewrite (lower_surface_lookup m p t true g _ _ Hinc Hxn), Hc, Ht.
      f_equal. lra. }
  unfold loop_y, closed_ends. fold raw.
  rewrite (list_insert_id raw 0 0 Hfirst). now apply list_insert_id.
Qed.

(** ** The trailing edge in any float arithmetic *)

(** With [exact] the second reading of the program is the first. *)
Lemma Fl_exact (number : string) (N : Z) (hcs cte save : bool)
    (fs : gmap string string) :
  Fl.NACA4 exact number N hcs cte save fs = NACA4 number N hcs cte save fs.
Proof. reflexivity. Qed.

Section AnyArithmetic.
Variable A : arithmetic.

Lemma Fl_decode_ok (number : string) (m p t : R) :
  decode number = Ok (m, p, t) →
  ∃ m' p' t', Fl.decode A number = Ok (m', p', t').
Proof.
  unfold decode, Fl.decode.
  destruct (Py.index number 0) as [c0|]; [|discriminate].
  cbn [mbind result_bind].
  destruct (Py.float c0) as [m0|]; [|discriminate].
  cbn [mbind result_bind].
  destruct (Py.index number 1) as [c1|]; [|discriminate].
  cbn [mbind result_bind].
  destruct (Py.float c1) as [p0|]; [|discriminate].
  cbn [mbind result_bind].
  destruct (Py.float (Py.slice_from number 2)) as [t0|]; [|discriminate].
  cbn [mbind result_bind mret result_ret]. intros _. eauto.
Qed.

Lemma Fl_linspace_length (a b : R) (n : nat) :
  length (Fl.linspace A a b n) = n.
Proof.
  unfold Fl.linspace.
  repeat case_match; rewrite ?length_insert, !length_fmap; apply length_seq.
Qed.

Lemma Fl_grid_length (hcs : bool) (N : Z) :
  length (Fl.grid A hcs N) = Z.to_nat N.
Proof.
  unfold Fl.grid. destruct hcs; rewrite ?length_fmap; apply Fl_linspace_length.
Qed.

Lemma Fl_thickness_length (cte : bool) (t : R) (x : list R) :
  length (Fl.thickness_distribution A cte t x) = length x.
Proof. unfold Fl.thickness_distribution. destruct cte; apply length_fmap. Qed.

Lemma Fl_camber_length (m p : R) (x : list R) :
  length (Fl.camber_line A m p x) = length x.
Proof.
  unfold Fl.camber_line, Np.append, Np.zeros. case_decide.
  - rewrite length_app, !length_fmap. apply masks_length.
  - apply length_replicate.
Qed.

(** What the program computes, in any arithmetic, once validation and
    decoding have succeeded. *)
Lemma Fl_NACA4_coordinates_decoded (number : string) (N : Z) (hcs cte : bool)
    (m p t : R) :
  in_range number = true → (0 < N)%Z → Fl.decode A number = Ok (m, p, t) →
  Fl.NACA4_coordinates A number N hcs cte
  = Ok (zip (loop_x (Fl.grid A hcs N))
          (closed_ends cte
             (reverse (zip_with (fl_add A) (Fl.camber_line A m p (Fl.grid A hcs N))
                         (Fl.thickness_distribution A cte t (Fl.grid A hcs N)))
              ++ drop 1 (zip_with (fl_sub A)
                           (Fl.camber_line A m p (Fl.grid A hcs N))
                           (Fl.thickness_distribution A cte t
                              (Fl.grid A hcs N)))))).
Proof.
  intros Hr HN Hd. apply in_range_spec in Hr as (n & Hn & Hrange).
  unfold Fl.NACA4_coordinates, Py.int. rewrite Hn. cbn [mbind result_bind].
  replace ((0 <? n)%Z && (n <? 10000)%Z && (N >? 0)%Z) with true
    by (symmetry; rewrite !andb_true_iff; lia).
  cbn [negb]. rewrite Hd. cbn [mbind result_bind].
  rewrite !broadcast_same_length
    by now rewrite Fl_camber_length, Fl_thickness_length.
  cbn [mbind result_bind].
  rewrite join_surfaces_ok.
  - cbn [mbind result_bind]. unfold Np.column_stack, Np.flipud, Np.append.
    fold (loop_x (Fl.grid A hcs N)).
    rewrite loop_x_length, closed_ends_length, length_app, length_reverse,
      length_drop, !length_zip_with, Fl_camber_length, Fl_thickness_length,
      Fl_grid_length.
    replace (_ =? _)%nat with true by (symmetry; apply Nat.eqb_eq; lia).
    reflexivity.
  - rewrite length_zip_with, Fl_camber_length, Fl_thickness_length,
      Fl_grid_length. lia.
Qed.

End AnyArithmetic.

(** Lines 126-128 on any two surfaces: whatever lines 111-112 left at the
    two ends, the joined array starts and ends with 0. *)
Lemma join_surfaces_closed (y_upper y_lower : list R) :
  (0 < length y_upper)%nat →
  ∃ y, join_surfaces true y_upper y_lower = Ok y
       ∧ length y = (length y_upper + (length y_lower - 1))%nat
       ∧ head y = Some 0 ∧ last y = Some 0
       ∧ ∀ k, (0 < k < length y - 1)%nat →
              y !! k = (reverse y_upper ++ drop 1 y_lower) !! k.
Proof.
  intros H. exists (closed_ends true (reverse y_upper ++ drop 1 y_lower)).
  assert (Hl : length (reverse y_upper ++ drop 1 y_lower)
               = (length y_upper + (length y_lower - 1))%nat)
    by now rewrite length_app, length_reverse, length_drop.
  split; [now apply join_surfaces_ok|].
  split; [now rewrite closed_ends_length|].
  split; [rewrite head_lookup; apply closed_ends_first; lia|].
  split.
  - rewrite last_lookup, closed_ends_length.
    replace (Init.Nat.pred (length (reverse y_upper ++ drop 1 y_lower)))
      with (length (reverse y_upper ++ drop 1 y_lower) - 1)%nat by lia.
    apply closed_ends_last. lia.
  - intros k Hk. rewrite closed_ends_length in Hk.
    apply closed_ends_inner; lia.
Qed.

Lemma Fl_NACA4_valid (A : arithmetic) (number : string) (N : Z)
    (hcs cte save : bool) (fs : gmap string string) (m p t : R) :
  valid_designator number = true → (0 < N)%Z →
  Fl.decode A number = Ok (m, p, t) →
  (Fl.NACA4 A number N hcs cte save fs).1
  = Ok (zip (loop_x (Fl.grid A hcs N))
          (closed_ends cte
             (reverse (zip_with (fl_add A)
                         (Fl.camber_line A m p (Fl.grid A hcs N))
                         (Fl.thickness_distribution A cte t (Fl.grid A hcs N)))
              ++ drop 1 (zip_with (fl_sub A)
                           (Fl.camber_line A m p (Fl.grid A hcs N))
                           (Fl.thickness_distribution A cte t
                              (Fl.grid A hcs N)))))).
Proof.
  intros Hv HN Hd. destruct (valid_designator_decodes number Hv) as (Hr & _).
  unfold Fl.NACA4.
  now rewrite (Fl_NACA4_coordinates_decoded A _ _ _ _ _ _ _ Hr HN Hd).
Qed.

(** The two ends of a loop whose ordinates went through lines 126-128. *)
Lemma closed_loop_ends (x raw : list R) :
  (0 < length x)%nat → length raw = (length x + (length x - 1))%nat →
  ∃ x_first x_last,
    head (zip (loop_x x) (closed_ends true raw)) = Some (x_first, 0)
    ∧ last (zip (loop_x x) (closed_ends true raw)) = Some (x_last, 0).
Proof.
  intros Hx Hraw.
  assert (Hl : length (loop_x x) = length raw)
    by (rewrite loop_x_length; lia).
  destruct (lookup_lt_is_Some_2 (loop_x x) 0) as [x_first Hf];
    [rewrite Hl; lia|].
  destruct (lookup_lt_is_Some_2 (loop_x x) (length raw - 1)) as [x_last Hla];
    [rewrite Hl; lia|].
  exists x_first, x_last. split.
  - rewrite head_lookup. rewrite lookup_zip_with, Hf.
    rewrite closed_ends_first by lia. reflexivity.
  - rewrite last_lookup, length_zip_with, closed_ends_length, Hl.
    replace (Init.Nat.pred (length raw `min` length raw))
      with (length raw - 1)%nat by lia.
    rewrite lookup_zip_with, Hla.
    rewrite closed_ends_last by lia. reflexivity.
Qed.

(** ** Rounded literals *)

Lemma round_half_even_near (r : R) (z : Z) :
  IZR z - 1 / 2 < r < IZR z + 1 / 2 → Np.round_half_even r = z.
Proof.
  intros [Hlo Hhi]. unfold Np.round_half_even.
  destruct (base_Int_part r) as [H1 H2].
  assert (Hle : (Int_part r <= z)%Z).
  { apply Z.lt_succ_r, lt_IZR. rewrite succ_IZR. lra. }
  assert (Hge : (z - 1 <= Int_part r)%Z).
  { apply Z.lt_succ_r, lt_IZR. rewrite succ_IZR, minus_IZR. lra. }
  destruct (decide (Int_part r = z)) as [E|E].
  - rewrite E in *. rewrite decide_True by lra. reflexivity.
  - assert (E' : Int_part r = (z - 1)%Z) by lia.
    rewrite E' in *. rewrite minus_IZR in *.
    rewrite decide_False by lra. rewrite decide_True by lra. lia.
Qed.

Lemma three_decimals_literal (v : R) (z : Z) :
  IZR z - 1 / 2 < v * 1000 < IZR z + 1 / 2 →
  fl_literal three_decimals v = IZR z / 1000.
Proof. intros H. simpl. now rewrite (round_half_even_near _ z H). Qed.

(** With literals of three decimals the closed polynomial of lines 89-92
    leaves [- t / 200] at the trailing edge: the coefficients no longer
    add up to 0, as they do not in binary64. *)
Lemma three_decimals_residue (t : R) :
  Fl.thickness_distribution three_decimals true t [1] = [- (t / 200)].
Proof.
  unfold Fl.thickness_distribution. cbn [fmap list_fmap].
  rewrite (three_decimals_literal 0.20 200) by lra.
  rewrite (three_decimals_literal 0.29690 297) by lra.
  rewrite (three_decimals_literal 0.12600 126) by lra.
  rewrite (three_decimals_literal 0.35160 352) by lra.
  rewrite (three_decimals_literal 0.28430 284) by lra.
  rewrite (three_decimals_literal 0.10360 104) by lra.
  cbn [fl_add fl_sub fl_mul fl_div fl_sqrt fl_power three_decimals].
  rewrite sqrt_1. f_equal. lra.
Qed.

(** The overwrite of lines 126-128 at work: with literals of three
    decimals the upper surface of NACA 0012 on two stations reaches the
    trailing edge at [-0.0006], and the result starts at [(1, 0)]. *)
Lemma closing_overwrites_residue :
  ∃ m p t y_upper coordinates,
    Fl.decode three_decimals "0012" = Ok (m, p, t)
    ∧ Np.broadcast (fl_add three_decimals)
        (Fl.camber_line three_decimals m p (Fl.grid three_decimals false 2))
        (Fl.thickness_distribution three_decimals true t
           (Fl.grid three_decimals false 2)) = Ok y_upper
    ∧ last y_upper = Some (-0.0006)
    ∧ (Fl.NACA4 three_decimals "0012" 2 false true false ∅).1 = Ok coordinates
    ∧ head coordinates = Some (1, 0).
Proof.
  assert (Hd : Fl.decode three_decimals "0012"
               = Ok (0, 0, IZR 12 / 100)).
  { unfold Fl.decode, Py.index. simpl String.get. cbn [mbind result_bind].
    assert (H0 : Py.is_digit "0" = true) by reflexivity.
    rewrite (float_digit "0" H0). cbn [mbind result_bind].
    replace (Py.float (Py.slice_from "0012" 2)) with (Ok (A := R) (IZR 12))
      by reflexivity.
    cbn [mbind result_bind mret result_ret].
    change (IZR (Py.digit_val "0")) with 0.
    rewrite !(decide_False (P := 0 ≠ 0)) by (intros H; now apply H).
    rewrite decide_True by lra. reflexivity. }
  assert (Hg : Fl.grid three_decimals false 2 = [0 * (1 - 0) / 1 + 0; 1]).
  { unfold Fl.grid, Fl.linspace. simpl. case_decide; [exfalso; lra|].
    simpl. do 2 f_equal. lra. }
  set (g := Fl.grid three_decimals false 2) in *.
  set (T := Fl.thickness_distribution three_decimals true (IZR 12 / 100) g).
  assert (HT : ∃ t0, T = t0 :: Fl.thickness_distribution three_decimals true
                                 (IZR 12 / 100) [1]).
  { unfold T. rewrite Hg. unfold Fl.thickness_distribution.
    cbn [fmap list_fmap]. eauto. }
  destruct HT as [t0 HT]. rewrite three_decimals_residue in HT.
  assert (HC : Fl.camber_line three_decimals 0 0 g = [0; 0]).
  { unfold Fl.camber_line. rewrite decide_False by lra.
    rewrite Hg. reflexivity. }
  exists 0, 0, (IZR 12 / 100),
    (zip_with (fl_add three_decimals) (Fl.camber_line three_decimals 0 0 g) T).
  eexists. split; [exact Hd|].
  split.
  { apply broadcast_same_length. unfold T.
    now rewrite Fl_camber_length, Fl_thickness_length. }
  split.
  { rewrite HC, HT. simpl. f_equal. lra. }
  split.
  { apply (Fl_NACA4_valid three_decimals "0012" 2 false true false ∅);
      [reflexivity|lia|exact Hd]. }
  fold g. rewrite head_lookup. rewrite lookup_zip_with.
  rewrite closed_ends_first.
  - rewrite Hg. reflexivity.
  - rewrite length_app, length_reverse, length_zip_with, Fl_camber_length,
      Fl_thickness_length. unfold g. rewrite Fl_grid_length. simpl. lia.
Qed.

(** C4. In lines 89-96 the thickness polynomial is one formula in which
    only the last coefficient depends on the variant: 0.10360 when the
    trailing edge is closed, 0.10150 otherwise. Beyond that coefficient the
    variants differ by lines 126-128 alone, which store 0 over the first
    and the last entry of the joined ordinates, whatever lines 111-112 put
    there. So with the trailing edge closed the first and the last ordinate
    of the result are 0 in every float arithmetic, and in the exact one in
    particular. *)
Theorem NACA4_closed_trailing_edge (A : arithmetic) (number : string)
    (N : Z) (hcs save : bool) (fs : gmap string string) :
  valid_designator number = true → (0 < N)%Z →
  (∀ cte t x,
     Fl.thickness_distribution A cte t x
     = (λ v,
          fl_mul A (fl_div A t (fl_literal A 0.20))
            (fl_sub A
               (fl_add A
                  (fl_sub A
                     (fl_sub A
                        (fl_mul A (fl_literal A 0.29690) (fl_sqrt A v))
                        (fl_mul A (fl_literal A 0.12600) v))
                     (fl_mul A (fl_literal A 0.35160) (fl_power A v 2)))
                  (fl_mul A (fl_literal A 0.28430) (fl_power A v 3)))
               (fl_mul A (fl_literal A (if cte then 0.10360 else 0.10150))
                  (fl_power A v 4)))) <$> x)
  ∧ (∀ cte t x,
       thickness_distribution cte t x
       = (λ v, (t / 0.20) * (0.29690 * sqrt v - 0.12600 * v - 0.35160 * v ^ 2
                             + 0.28430 * v ^ 3
                             - (if cte then 0.10360 else 0.10150) * v ^ 4))
         <$> x)
  ∧ (∀ y_upper y_lower, (0 < length y_upper)%nat →
       join_surfaces false y_upper y_lower
       = Ok (reverse y_upper ++ drop 1 y_lower)
       ∧ ∃ y, join_surfaces true y_upper y_lower = Ok y
              ∧ length y = length (reverse y_upper ++ drop 1 y_lower)
              ∧ head y = Some 0 ∧ last y = Some 0
              ∧ ∀ k, (0 < k < length y - 1)%nat →
                     y !! k = (reverse y_upper ++ drop 1 y_lower) !! k)
  ∧ (∃ m p t,
       Fl.decode A number = Ok (m, p, t)
       ∧ ∀ cte, ∃ y_upper y_lower y,
           Np.broadcast (fl_add A) (Fl.camber_line A m p (Fl.grid A hcs N))
             (Fl.thickness_distribution A cte t (Fl.grid A hcs N)) = Ok y_upper
           ∧ Np.broadcast (fl_sub A) (Fl.camber_line A m p (Fl.grid A hcs N))
               (Fl.thickness_distribution A cte t (Fl.grid A hcs N))
             = Ok y_lower
           ∧ join_surfaces cte y_upper y_lower = Ok y
           ∧ (Fl.NACA4 A number N hcs cte save fs).1
             = Ok (zip (reverse (Fl.grid A hcs N) ++ drop 1 (Fl.grid A hcs N))
                     y))
  ∧ (∃ coordinates x_first x_last,
       (Fl.NACA4 A number N hcs true save fs).1 = Ok coordinates
       ∧ head coordinates = Some (x_first, 0)
       ∧ last coordinates = Some (x_last, 0))
  ∧ (∃ coordinates x_first x_last,
       (NACA4 number N hcs true save fs).1 = Ok coordinates
       ∧ head coordinates = Some (x_first, 0)
       ∧ last coordinates = Some (x_last, 0)).
Proof.
  intros Hv HN.
  split; [intros [] t x; reflexivity|].
  split; [intros [] t x; reflexivity|].
  split.
  { intros y_upper y_lower Hu.
    split; [exact (join_surfaces_ok false y_upper y_lower Hu)|].
    destruct (join_surfaces_closed y_upper y_lower Hu)
      as (y & Hy & Hlen & Hh & Hl & Hin).
    exists y. repeat split; try assumption.
    now rewrite Hlen, length_app, length_reverse, length_drop. }
  assert (Hends : ∀ B : arithmetic,
            ∃ coordinates x_first x_last,
              (Fl.NACA4 B number N hcs true save fs).1 = Ok coordinates
              ∧ head coordinates = Some (x_first, 0)
              ∧ last coordinates = Some (x_last, 0)).
  { intros B.
    destruct (valid_designator_decodes number Hv) as (_ & m & p & t & Hd & _).
    destruct (Fl_decode_ok B number m p t Hd) as (m' & p' & t' & Hd').
    pose proof (Fl_NACA4_valid B number N hcs true save fs m' p' t' Hv HN Hd')
      as Hres.
    destruct (closed_loop_ends (Fl.grid B hcs N)
                (reverse (zip_with (fl_add B)
                            (Fl.camber_line B m' p' (Fl.grid B hcs N))
                            (Fl.thickness_distribution B true t'
                               (Fl.grid B hcs N)))
                 ++ drop 1 (zip_with (fl_sub B)
                              (Fl.camber_line B m' p' (Fl.grid B hcs N))
                              (Fl.thickness_distribution B true t'
                                 (Fl.grid B hcs N)))))
      as (x_first & x_last & Hh & Hl).
    - rewrite Fl_grid_length. lia.
    - now rewrite length_app, length_reverse, length_drop, !length_zip_with,
        Fl_camber_length, Fl_thickness_length, Nat.min_id.
    - eexists _, x_first, x_last. split; [exact Hres|]. split; assumption. }
  split.
  { destruct (valid_designator_decodes number Hv) as (_ & m & p & t & Hd & _).
    destruct (Fl_decode_ok A number m p t Hd) as (m' & p' & t' & Hd').
    exists m', p', t'. split; [exact Hd'|]. intros cte.
    set (g := Fl.grid A hcs N).
    set (C := Fl.camber_line A m' p' g).
    set (T := Fl.thickness_distribution A cte t' g).
    assert (HCT : length C = length T).
    { unfold C, T. now rewrite Fl_camber_length, Fl_thickness_length. }
    assert (Hpos : (0 < length (zip_with (fl_add A) C T))%nat).
    { rewrite length_zip_with, <- HCT, Nat.min_id. unfold C.
      rewrite Fl_camber_length. unfold g. rewrite Fl_grid_length. lia. }
    exists (zip_with (fl_add A) C T), (zip_with (fl_sub A) C T),
      (closed_ends cte (reverse (zip_with (fl_add A) C T)
                        ++ drop 1 (zip_with (fl_sub A) C T))).
    split; [now apply broadcast_same_length|].
    split; [now apply broadcast_same_length|].
    split; [now apply join_surfaces_ok|].
    exact (Fl_NACA4_valid A number N hcs cte save fs m' p' t' Hv HN Hd'). }
  split; [exact (Hends A)|].
  rewrite <- Fl_exact. exact (Hends exact).
Qed.

Lemma NACA4_closed_trailing_edge_witness :
  valid_designator "2412" = true ∧ (0 < 50)%Z
  ∧ ∃ coordinates x_first x_last,
      (Fl.NACA4 three_decimals "2412" 50 true true false ∅).1 = Ok coordinates
      ∧ head coordinates = Some (x_first, 0)
      ∧ last coordinates = Some (x_last, 0).
Proof.
  assert (Hv : valid_designator "2412" = true) by reflexivity.
  assert (HN : (0 < 50)%Z) by lia.
  split; [exact Hv|]. split; [exact HN|].
  exact (proj1 (proj2 (proj2 (proj2 (proj2
    (NACA4_closed_trailing_edge three_decimals "2412" 50 true false ∅
       Hv HN)))))).
Defined.

(** C10. For every valid designator, those of four characters among them,
    and every [N > 0], the point at index [N - 1] of the result is
    [(0, 0)]: the first station is 0 under both spacings, and thickness and
    camber are both 0 there. *)
Theorem NACA4_leading_edge (number : string) (N : Z)
    (hcs cte save : bool) (fs : gmap string string) :
  valid_designator number = true → (0 < N)%Z →
  ∃ m p t coordinates,
    decode number = Ok (m, p, t)
    ∧ (NACA4 number N hcs cte save fs).1 = Ok coordinates
    ∧ coordinates !! Z.to_nat (N - 1) = Some (0, 0)
    ∧ grid true N !! 0%nat = Some 0
    ∧ grid false N !! 0%nat = Some 0
    ∧ thickness_distribution cte t (grid hcs N) !! 0%nat = Some 0
    ∧ camber_line m p (grid hcs N) !! 0%nat = Some 0.
Proof.
  intros Hv HN.
  destruct (valid_designator_decodes number Hv) as (_ & m & p & t & Hd & _).
  pose proof (grid_is_increasing hcs N) as Hinc.
  pose proof (grid_first hcs N HN) as H0.
  exists m, p, t, (zip (loop_x (grid hcs N)) (loop_y m p t cte (grid hcs N))).
  split; [exact Hd|]. split; [now apply NACA4_valid|].
  repeat split; try (apply grid_first; exact HN).
  - pose proof (coordinates_upper m p t cte _ _ _ Hinc H0) as Hu.
    rewrite grid_length in Hu.
    replace (Z.to_nat N - 1 - 0)%nat with (Z.to_nat (N - 1)) in Hu by lia.
    rewrite Hu. do 2 f_equal.
    rewrite spec_camber_leading_edge, spec_thickness_leading_edge.
    unfold closed_at. case_match; lra.
  - rewrite thickness_distribution_spec, list_lookup_fmap, H0. simpl.
    now rewrite spec_thickness_leading_edge.
  - rewrite (camber_lookup m p _ _ _ Hinc H0).
    now rewrite spec_camber_leading_edge.
Qed.

Lemma NACA4_leading_edge_witness :
  valid_designator "2412" = true ∧ (0 < 50)%Z
  ∧ ∃ m p t coordinates,
      decode "2412" = Ok (m, p, t)
      ∧ (NACA4 "2412" 50 true true false ∅).1 = Ok coordinates
      ∧ coordinates !! Z.to_nat (50 - 1) = Some (0, 0)
      ∧ grid true 50 !! 0%nat = Some 0
      ∧ grid false 50 !! 0%nat = Some 0
      ∧ thickness_distribution true t (grid true 50) !! 0%nat = Some 0
      ∧ camber_line m p (grid true 50) !! 0%nat = Some 0.
Proof.
  split; [reflexivity|]. split; [lia|].
  apply (NACA4_leading_edge "2412" 50 true true false ∅); [reflexivity|lia].
Defined.



(** C6. At every station [x] the half thickness is
    [(t/0.20)(0.29690 sqrt x - 0.12600 x - 0.35160 x^2 + 0.28430 x^3
    - c4 x^4)], where [t] is the number the designator holds from its third
    character on, over 100; the upper surface is camber plus this
    thickness and the lower surface camber minus it, station by station,
    and these are the ordinates the result carries (the trailing-edge
    ordinates being overwritten by 0 when the trailing edge is closed). *)
Theorem thickness_formula (number : string) (N : Z)
    (hcs cte save : bool) (fs : gmap string string) :
  valid_designator number = true → (0 < N)%Z →
  ∃ m p t z y_upper y_lower coordinates,
    decode number = Ok (m, p, t)
    ∧ Py.integer_literal (Py.slice_from number 2) = Some z
    ∧ t = IZR z / 100
    ∧ (∀ c0 c1 c2 c3,
         number = String c0 (String c1 (String c2 (String c3 EmptyString))) →
         four_digits number = true →
         z = (10 * Py.digit_val c2 + Py.digit_val c3)%Z)
    ∧ Np.add (camber_line m p (grid hcs N))
        (thickness_distribution cte t (grid hcs N)) = Ok y_upper
    ∧ Np.subtract (camber_line m p (grid hcs N))
        (thickness_distribution cte t (grid hcs N)) = Ok y_lower
    ∧ (NACA4 number N hcs cte save fs).1 = Ok coordinates
    ∧ ∀ (i : nat) (x : R),
        grid hcs N !! i = Some x →
        ∃ thickness camber,
          thickness_distribution cte t (grid hcs N) !! i = Some thickness
          ∧ thickness
            = (t / 0.20) * (0.29690 * sqrt x - 0.12600 * x - 0.35160 * x ^ 2
                            + 0.28430 * x ^ 3
                            - (if cte then 0.10360 else 0.10150) * x ^ 4)
          ∧ camber_line m p (grid hcs N) !! i = Some camber
          ∧ y_upper !! i = Some (camber + thickness)
          ∧ y_lower !! i = Some (camber - thickness)
          ∧ coordinates !! (Z.to_nat N - 1 - i)%nat
            = Some (x, closed_at cte (Z.to_nat N) i (camber + thickness))
          ∧ ((1 ≤ i)%nat →
             coordinates !! (Z.to_nat N - 1 + i)%nat
             = Some (x, closed_at cte (Z.to_nat N) i (camber - thickness))).
Proof.
  intros Hv HN.
  destruct (valid_designator_fields number Hv)
    as (c0 & c1 & rest & z & Hnum & H0 & H1 & Hz & Hr & Hd).
  pose proof (grid_is_increasing hcs N) as Hinc.
  set (m := IZR (Py.digit_val c0) / 100) in *.
  set (p := IZR (Py.digit_val c1) / 10) in *.
  set (t := IZR z / 100) in *.
  exists m, p, t, z, (upper_surface m p t cte (grid hcs N)),
    (lower_surface m p t cte (grid hcs N)),
    (zip (loop_x (grid hcs N)) (loop_y m p t cte (grid hcs N))).
  split; [exact Hd|]. split; [exact Hz|]. split; [reflexivity|]. split.
  { intros d0 d1 d2 d3 E H4. rewrite E in Hz, H4.
    unfold four_digits in H4. simpl in H4.
    rewrite !andb_true_iff in H4. destruct H4 as [[[_ _] H2] H3].
    rewrite slice_from_2 in Hz. unfold Py.integer_literal in Hz.
    simpl list_ascii_of_string in Hz.
    rewrite two_digits_integer_literal in Hz by assumption. congruence. }
  split; [apply broadcast_same_length;
          now rewrite camber_length, thickness_length|].
  split; [apply broadcast_same_length;
          now rewrite camber_length, thickness_length|].
  split; [now apply NACA4_valid|].
  intros i x Hx.
  exists (spec_thickness (spec_c4 cte) t x), (spec_camber m p x).
  split; [now rewrite thickness_distribution_spec, list_lookup_fmap, Hx|].
  split; [destruct cte; reflexivity|].
  split; [now apply camber_lookup|].
  split; [now apply upper_surface_lookup|].
  split; [now apply lower_surface_lookup|].
  rewrite <- (grid_length hcs N). split.
  - now apply coordinates_upper.
  - intros Hi. now apply coordinates_lower.
Qed.

Lemma thickness_formula_witness :
  valid_designator "2412" = true ∧ (0 < 50)%Z
  ∧ ∃ m p t z y_upper y_lower coordinates,
      decode "2412" = Ok (m, p, t)
      ∧ Py.integer_literal (Py.slice_from "2412" 2) = Some z
      ∧ t = IZR z / 100
      ∧ (∀ c0 c1 c2 c3,
           "2412" = String c0 (String c1 (String c2 (String c3 EmptyString))) →
           four_digits "2412" = true →
           z = (10 * Py.digit_val c2 + Py.digit_val c3)%Z)
      ∧ Np.add (camber_line m p (grid true 50))
          (thickness_distribution true t (grid true 50)) = Ok y_upper
      ∧ Np.subtract (camber_line m p (grid true 50))
          (thickness_distribution true t (grid true 50)) = Ok y_lower
      ∧ (NACA4 "2412" 50 true true false ∅).1 = Ok coordinates
      ∧ ∀ (i : nat) (x : R),
          grid true 50 !! i = Some x →
          ∃ thickness camber,
            thickness_distribution true t (grid true 50) !! i = Some thickness
            ∧ thickness
              = (t / 0.20) * (0.29690 * sqrt x - 0.12600 * x
                              - 0.35160 * x ^ 2 + 0.28430 * x ^ 3
                              - 0.10360 * x ^ 4)
            ∧ camber_line m p (grid true 50) !! i = Some camber
            ∧ y_upper !! i = Some (camber + thickness)
            ∧ y_lower !! i = Some (camber - thickness)
            ∧ coordinates !! (Z.to_nat 50 - 1 - i)%nat
              = Some (x, closed_at true (Z.to_nat 50) i (camber + thickness))
            ∧ ((1 ≤ i)%nat →
               coordinates !! (Z.to_nat 50 - 1 + i)%nat
               = Some (x, closed_at true (Z.to_nat 50) i (camber - thickness))).
Proof.
  split; [reflexivity|]. split; [lia|].
  apply (thickness_formula "2412" 50 true true false ∅); [reflexivity|lia].
Defined.

(** C8. For every valid designator whose first digit is 0 and every
    [N > 0], the camber is 0 at every station, and at each station the
    lower ordinate is the negative of the upper ordinate at the same
    abscissa, in the intermediate arrays and in the result. *)
Theorem NACA4_symmetric (number : string) (N : Z)
    (hcs cte save : bool) (fs : gmap string string) :
  valid_designator number = true → String.get 0 number = Some "0"%char →
  (0 < N)%Z →
  ∃ m p t y_upper y_lower coordinates,
    decode number = Ok (m, p, t) ∧ m = 0
    ∧ Np.add (camber_line m p (grid hcs N))
        (thickness_distribution cte t (grid hcs N)) = Ok y_upper
    ∧ Np.subtract (camber_line m p (grid hcs N))
        (thickness_distribution cte t (grid hcs N)) = Ok y_lower
    ∧ (NACA4 number N hcs cte save fs).1 = Ok coordinates
    ∧ ∀ (i : nat) (x : R),
        grid hcs N !! i = Some x →
        camber_line m p (grid hcs N) !! i = Some 0
        ∧ (∃ y, y_upper !! i = Some y ∧ y_lower !! i = Some (- y))
        ∧ (∃ y, coordinates !! (Z.to_nat N - 1 - i)%nat = Some (x, y)
                ∧ coordinates !! (Z.to_nat N - 1 + i)%nat = Some (x, - y)).
Proof.
  intros Hv Hc0 HN.
  destruct (valid_designator_fields number Hv)
    as (c0 & c1 & rest & z & Hnum & H0 & H1 & Hz & Hr & Hd).
  rewrite Hnum in Hc0. simpl in Hc0. injection Hc0 as ->.
  change (IZR (Py.digit_val "0") / 100) with (0 / 100) in Hd.
  replace (0 / 100) with 0 in Hd by lra.
  pose proof (grid_is_increasing hcs N) as Hinc.
  set (p := IZR (Py.digit_val c1) / 10) in *.
  set (t := IZR z / 100) in *.
  assert (Hzero : ∀ v, spec_camber 0 p v = 0).
  { intros v. unfold spec_camber. rewrite decide_False by lra. reflexivity. }
  exists 0, p, t, (upper_surface 0 p t cte (grid hcs N)),
    (lower_surface 0 p t cte (grid hcs N)),
    (zip (loop_x (grid hcs N)) (loop_y 0 p t cte (grid hcs N))).
  split; [exact Hd|]. split; [reflexivity|].
  split; [apply broadcast_same_length;
          now rewrite camber_length, thickness_length|].
  split; [apply broadcast_same_length;
          now rewrite camber_length, thickness_length|].
  split; [now apply NACA4_valid|].
  intros i x Hx. split; [|split].
  - rewrite (camber_lookup 0 p _ _ _ Hinc Hx). now rewrite Hzero.
  - exists (0 + spec_thickness (spec_c4 cte) t x). split.
    + rewrite (upper_surface_lookup 0 p t cte _ _ _ Hinc Hx). now rewrite Hzero.
    + rewrite (lower_surface_lookup 0 p t cte _ _ _ Hinc Hx). rewrite Hzero.
      f_equal. lra.
  - pose proof (coordinates_upper 0 p t cte _ _ _ Hinc Hx) as Hu.
    rewrite grid_length, Hzero in Hu.
    eexists. split; [exact Hu|].
    destruct (decide (i = 0%nat)) as [->|Hi].
    + replace (Z.to_nat N - 1 + 0)%nat with (Z.to_nat N - 1 - 0)%nat by lia.
      rewrite Hu. do 2 f_equal.
      rewrite (grid_first hcs N HN) in Hx. injection Hx as <-.
      rewrite spec_thickness_leading_edge. unfold closed_at. case_match; lra.
    + assert (Hi1 : (1 ≤ i)%nat) by lia.
      pose proof (coordinates_lower 0 p t cte _ _ _ Hinc Hi1 Hx) as Hl.
      rewrite grid_length, Hzero in Hl. rewrite Hl. do 2 f_equal.
      unfold closed_at. case_match; lra.
Qed.

Lemma NACA4_symmetric_witness :
  valid_designator "0012" = true ∧ String.get 0 "0012" = Some "0"%char
  ∧ (0 < 50)%Z
  ∧ ∃ m p t y_upper y_lower coordinates,
      decode "0012" = Ok (m, p, t) ∧ m = 0
      ∧ Np.add (camber_line m p (grid true 50))
          (thickness_distribution true t (grid true 50)) = Ok y_upper
      ∧ Np.subtract (camber_line m p (grid true 50))
          (thickness_distribution true t (grid true 50)) = Ok y_lower
      ∧ (NACA4 "0012" 50 true true false ∅).1 = Ok coordinates
      ∧ ∀ (i : nat) (x : R),
          grid true 50 !! i = Some x →
          camber_line m p (grid true 50) !! i = Some 0
          ∧ (∃ y, y_upper !! i = Some y ∧ y_lower !! i = Some (- y))
          ∧ (∃ y, coordinates !! (Z.to_nat 50 - 1 - i)%nat = Some (x, y)
                  ∧ coordinates !! (Z.to_nat 50 - 1 + i)%nat = Some (x, - y)).
Proof.
  split; [reflexivity|]. split; [reflexivity|]. split; [lia|].
  apply (NACA4_symmetric "0012" 50 true true false ∅);
    [reflexivity|reflexivity|lia].
Defined.

(** C7, as amended. For every [N > 0] the grid has exactly [N] stations
    and begins at 0. For [N >= 2] it ends at 1, its stations are
    [(1 - cos (pi i / (N - 1))) / 2] under half-cosine spacing and
    [i / (N - 1)] under linear spacing, it is strictly increasing under
    either spacing, and under linear spacing consecutive stations are
    [1 / (N - 1)] apart. For [N = 1] it is the single station 0. *)
Theorem grid_invariant (N : Z) :
  (0 < N)%Z →
  (∀ hcs, length (grid hcs N) = Z.to_nat N ∧ head (grid hcs N) = Some 0)
  ∧ (N = 1%Z → ∀ hcs, grid hcs N = [0])
  ∧ ((2 <= N)%Z →
     (∀ hcs, last (grid hcs N) = Some 1)
     ∧ (∀ i, (i < Z.to_nat N)%nat →
          grid true N !! i = Some ((1 - cos (PI * INR i / IZR (N - 1))) / 2))
     ∧ (∀ i, (i < Z.to_nat N)%nat →
          grid false N !! i = Some (INR i / IZR (N - 1)))
     ∧ (∀ hcs i j xi xj,
          (i < j)%nat → grid hcs N !! i = Some xi → grid hcs N !! j = Some xj →
          xi < xj)
     ∧ (∀ i xi xj,
          grid false N !! i = Some xi → grid false N !! S i = Some xj →
          xj - xi = 1 / IZR (N - 1))).
Proof.
  intros HN. split; [|split].
  - intros hcs. split; [apply grid_length|].
    rewrite head_lookup. now apply grid_first.
  - intros -> hcs. apply grid_one.
  - intros H2. repeat split.
    + intros hcs. rewrite last_lookup, grid_length.
      replace (Init.Nat.pred (Z.to_nat N)) with (Z.to_nat N - 1)%nat by lia.
      now apply grid_last.
    + intros i Hi. now rewrite (grid_lookup true N i H2 Hi).
    + intros i Hi. now rewrite (grid_lookup false N i H2 Hi).
    + intros hcs i j xi xj. apply grid_increasing.
    + intros i xi xj Hi Hj.
      pose proof (lookup_lt_Some _ _ _ Hj) as Hlt. rewrite grid_length in Hlt.
      rewrite (grid_lookup false N) in Hi, Hj by lia.
      injection Hi as <-. injection Hj as <-.
      simpl spec_station. unfold spec_linear_station. rewrite S_INR.
      field. apply not_0_IZR. lia.
Qed.

Lemma grid_invariant_witness :
  (0 < 50)%Z
  ∧ (∀ hcs, length (grid hcs 50) = Z.to_nat 50 ∧ head (grid hcs 50) = Some 0)
  ∧ (50%Z = 1%Z → ∀ hcs, grid hcs 50 = [0])
  ∧ ((2 <= 50)%Z →
     (∀ hcs, last (grid hcs 50) = Some 1)
     ∧ (∀ i, (i < Z.to_nat 50)%nat →
          grid true 50 !! i = Some ((1 - cos (PI * INR i / IZR (50 - 1))) / 2))
     ∧ (∀ i, (i < Z.to_nat 50)%nat →
          grid false 50 !! i = Some (INR i / IZR (50 - 1)))
     ∧ (∀ hcs i j xi xj,
          (i < j)%nat → grid hcs 50 !! i = Some xi → grid hcs 50 !! j = Some xj →
          xi < xj)
     ∧ (∀ i xi xj,
          grid false 50 !! i = Some xi → grid false 50 !! S i = Some xj →
          xj - xi = 1 / IZR (50 - 1))).
Proof.
  split; [lia|]. apply (grid_invariant 50). lia.
Defined.

(** C7, as stated, fails at [N = 1]: the grid is the single station 0, so
    its last element is 0, not 1. *)
Lemma grid_single_station :
  (1 > 0)%Z ∧ grid true 1 = [0] ∧ grid false 1 = [0]
  ∧ last (grid true 1) = Some 0 ∧ last (grid true 1) ≠ Some 1.
Proof.
  rewrite !grid_one. repeat split; try lia.
  simpl. intros [= H]. lra.
Qed.

(** *** The file *)

Lemma comment_lines_single_line (comments s : string) :
  single_line s = true → Np.comment_lines comments s = s.
Proof.
  unfold single_line. induction s as [|c s IH]; [reflexivity|].
  simpl. intros H. apply andb_true_iff in H as [Hc Hs].
  apply negb_true_iff in Hc. rewrite Hc. now rewrite IH.
Qed.

Lemma format_f_zero : Np.format_f 0 = "0.000000".
Proof.
  unfold Np.format_f, Np.round_half_even.
  replace (Rabs 0 * 10 ^ 6) with (INR 0)
    by (rewrite Rabs_R0, Rmult_0_l; reflexivity).
  rewrite Int_part_INR. change (Z.of_nat 0) with 0%Z. change (INR 0) with 0.
  repeat case_decide; first [lra | reflexivity].
Qed.

(** With a single point requested the result is the leading edge alone. *)
Lemma NACA4_coordinates_single_point (number : string) (hcs cte : bool) :
  valid_designator number = true →
  NACA4_coordinates number 1 hcs cte = Ok [(0, 0)].
Proof.
  intros Hv.
  destruct (valid_designator_decodes number Hv) as (Hr & m & p & t & Hd & _).
  assert (H1 : (0 < 1)%Z) by lia.
  rewrite (NACA4_coordinates_decoded _ _ hcs cte _ _ _ Hr H1 Hd).
  f_equal.
  pose proof (coordinates_upper m p t cte (grid hcs 1) 0 0
                (grid_is_increasing hcs 1) (grid_first hcs 1 H1)) as H.
  rewrite grid_length in H. change (Z.to_nat 1 - 1 - 0)%nat with 0%nat in H.
  rewrite spec_camber_leading_edge, spec_thickness_leading_edge in H.
  assert (Hy : closed_at cte (Z.to_nat 1) 0 (0 + 0) = 0)
    by (unfold closed_at; case_match; lra).
  rewrite Hy in H.
  assert (Hlen : length (zip (loop_x (grid hcs 1)) (loop_y m p t cte (grid hcs 1)))
                 = 1%nat).
  { rewrite length_zip_with, loop_x_length, loop_y_length, grid_length.
    reflexivity. }
  destruct (zip (loop_x (grid hcs 1)) (loop_y m p t cte (grid hcs 1)))
    as [|xy [|]]; try discriminate Hlen.
  simpl in H. congruence.
Qed.

(** C9, as amended. With [save_to_file] set, [NACA4] writes the file
    ["NACA <designator>.dat"]; its text is the header line
    ["# NACA <designator>"], the designator behind NumPy's comment prefix,
    followed by one line ["<x>\t<y>"] in ["%f"] format for each of the
    [2N - 1] points; the coordinates returned are those returned without
    the file, and without the flag the file system is left as it was. *)
Theorem NACA4_save_to_file (number : string) (N : Z) (hcs cte : bool)
    (fs : gmap string string) :
  valid_designator number = true → (0 < N)%Z →
  ∃ coordinates,
    NACA4 number N hcs cte false fs = (Ok coordinates, fs)
    ∧ Z.of_nat (length coordinates) = (2 * N - 1)%Z
    ∧ NACA4 number N hcs cte true fs
      = (Ok coordinates,
         <["NACA " +:+ number +:+ ".dat" :=
             "# " +:+ Np.comment_lines "# " ("NACA " +:+ number) +:+ Np.newline
             +:+ Np.rows coordinates]> fs)
    ∧ (single_line number = true →
       Np.comment_lines "# " ("NACA " +:+ number) = "NACA " +:+ number)
    ∧ Np.rows coordinates
      = foldr (λ xy text,
                 (Np.format_f xy.1 +:+ Np.tab +:+ Np.format_f xy.2
                  +:+ Np.newline) +:+ text) EmptyString coordinates.
Proof.
  intros Hv HN.
  destruct (valid_designator_decodes number Hv) as (Hr & m & p & t & Hd & _).
  exists (zip (loop_x (grid hcs N)) (loop_y m p t cte (grid hcs N))).
  unfold NACA4. rewrite (NACA4_coordinates_decoded _ _ _ _ _ _ _ Hr HN Hd).
  split; [reflexivity|]. split.
  { rewrite (NACA4_coordinates_length number). lia. }
  split; [reflexivity|]. split.
  - intros Hs. apply comment_lines_single_line.
    unfold single_line in *. simpl. exact Hs.
  - reflexivity.
Qed.

Lemma NACA4_save_to_file_witness :
  valid_designator "2412" = true ∧ (0 < 50)%Z
  ∧ ∃ coordinates,
      NACA4 "2412" 50 true true false ∅ = (Ok coordinates, ∅)
      ∧ Z.of_nat (length coordinates) = (2 * 50 - 1)%Z
      ∧ NACA4 "2412" 50 true true true ∅
        = (Ok coordinates,
           <["NACA " +:+ "2412" +:+ ".dat" :=
               "# " +:+ Np.comment_lines "# " ("NACA " +:+ "2412")
               +:+ Np.newline +:+ Np.rows coordinates]> ∅)
      ∧ (single_line "2412" = true →
         Np.comment_lines "# " ("NACA " +:+ "2412") = "NACA " +:+ "2412")
      ∧ Np.rows coordinates
        = foldr (λ xy text,
                   (Np.format_f xy.1 +:+ Np.tab +:+ Np.format_f xy.2
                    +:+ Np.newline) +:+ text) EmptyString coordinates.
Proof.
  split; [reflexivity|]. split; [lia|].
  apply (NACA4_save_to_file "2412" 50 true true ∅); [reflexivity|lia].
Defined.

(** C9, as stated, fails: the header line of the file written for
    ["0012"] is ["# NACA 0012"], not ["NACA 0012"]. *)
Lemma NACA4_save_to_file_header :
  ∃ text,
    NACA4 "0012" 1 true true true ∅
    = (Ok [(0, 0)], {["NACA 0012.dat" := text]})
    ∧ text = "# NACA 0012" +:+ Np.newline
             +:+ "0.000000" +:+ Np.tab +:+ "0.000000" +:+ Np.newline
    ∧ text ≠ "NACA 0012" +:+ Np.newline
             +:+ "0.000000" +:+ Np.tab +:+ "0.000000" +:+ Np.newline.
Proof.
  eexists. split; [|split; [reflexivity|discriminate]].
  unfold NACA4. rewrite NACA4_coordinates_single_point by reflexivity.
  unfold Np.savetxt, Np.savetxt_content, Np.rows, Np.row. simpl foldr.
  cbn [fst snd]. rewrite format_f_zero, insert_empty. reflexivity.
Qed.

(** *** The loop as a whole *)

(** The abscissa 0 occurs in the loop at the leading edge only. *)
Lemma loop_x_zero (hcs : bool) (N : Z) (k : nat) (v : R) :
  (0 < N)%Z → loop_x (grid hcs N) !! k = Some v →
  v = 0 ↔ k = (Z.to_nat N - 1)%nat.
Proof.
  intros HN Hk. unfold loop_x in Hk.
  pose proof (grid_first hcs N HN) as H0.
  assert (Hpos : ∀ i x, (1 ≤ i)%nat → grid hcs N !! i = Some x → 0 < x).
  { intros i x Hi Hx. apply (grid_increasing hcs N 0 i 0 x); [lia| |]; assumption. }
  destruct (decide (k < Z.to_nat N)%nat) as [Hlt|Hge].
  - rewrite lookup_app_l in Hk by (rewrite length_reverse, grid_length; lia).
    rewrite reverse_lookup, grid_length in Hk by (rewrite grid_length; lia).
    destruct (decide (k = Z.to_nat N - 1)%nat) as [->|Hne].
    + replace (Z.to_nat N - S (Z.to_nat N - 1))%nat with 0%nat in Hk by lia.
      rewrite H0 in Hk. injection Hk as <-. split; reflexivity.
    + assert (Hi : (1 ≤ Z.to_nat N - S k)%nat) by lia.
      pose proof (Hpos _ _ Hi Hk). split; [lra|lia].
  - rewrite lookup_app_r in Hk by (rewrite length_reverse, grid_length; lia).
    rewrite lookup_drop in Hk.
    assert (Hi : (1 ≤ 1 + (k - length (reverse (grid hcs N))))%nat) by lia.
    pose proof (Hpos _ _ Hi Hk). split; [lra|lia].
Qed.

(** C3, as amended. For every valid designator and every [N >= 2] the
    abscissas of the result are the grid reversed, from 1 down to 0,
    followed by the grid without its first station, and the ordinates are
    the upper surface reversed followed by the lower surface without its
    first station (both ends overwritten by 0 when the trailing edge is
    closed); the result has [2N - 1] points, starts and ends at [x = 1],
    meets [x = 0] at the leading edge only, and with the trailing edge
    closed its first and last point are both [(1, 0)]. For [N = 1] the
    result is the single point [(0, 0)]. *)
Theorem NACA4_loop (number : string) (N : Z) (hcs cte save : bool)
    (fs : gmap string string) :
  valid_designator number = true → (0 < N)%Z →
  (N = 1%Z → (NACA4 number N hcs cte save fs).1 = Ok [(0, 0)])
  ∧ ((2 <= N)%Z →
      ∃ m p t y_upper y_lower coordinates,
        decode number = Ok (m, p, t)
        ∧ Np.add (camber_line m p (grid hcs N))
            (thickness_distribution cte t (grid hcs N)) = Ok y_upper
        ∧ Np.subtract (camber_line m p (grid hcs N))
            (thickness_distribution cte t (grid hcs N)) = Ok y_lower
        ∧ (NACA4 number N hcs cte save fs).1 = Ok coordinates
        ∧ coordinates.*1 = reverse (grid hcs N) ++ drop 1 (grid hcs N)
        ∧ coordinates.*2
          = (if cte
             then <[(length (reverse y_upper ++ drop 1 y_lower) - 1)%nat := 0]>
                    (<[0%nat := 0]> (reverse y_upper ++ drop 1 y_lower))
             else reverse y_upper ++ drop 1 y_lower)
        ∧ Z.of_nat (length coordinates) = (2 * N - 1)%Z
        ∧ head coordinates.*1 = Some 1
        ∧ last coordinates.*1 = Some 1
        ∧ (∀ k x, coordinates.*1 !! k = Some x → x = 0 ↔ k = Z.to_nat (N - 1))
        ∧ (cte = true →
           head coordinates = Some (1, 0) ∧ last coordinates = Some (1, 0))).
Proof.
  intros Hv HN0. split.
  { intros ->. unfold NACA4.
    now rewrite (NACA4_coordinates_single_point number hcs cte Hv). }
  intros HN.
  destruct (valid_designator_decodes number Hv) as (_ & m & p & t & Hd & _).
  pose proof (grid_is_increasing hcs N) as Hinc.
  pose proof (grid_last hcs N HN) as Hlast.
  set (g := grid hcs N) in *.
  assert (Hg : length g = Z.to_nat N) by apply grid_length.
  exists m, p, t, (upper_surface m p t cte g), (lower_surface m p t cte g),
    (zip (loop_x g) (loop_y m p t cte g)).
  split; [exact Hd|].
  split; [apply broadcast_same_length;
          now rewrite camber_length, thickness_length|].
  split; [apply broadcast_same_length;
          now rewrite camber_length, thickness_length|].
  split; [now apply NACA4_valid|].
  assert (Hx : (zip (loop_x g) (loop_y m p t cte g)).*1 = loop_x g).
  { apply fst_zip. rewrite loop_x_length, loop_y_length. lia. }
  assert (Hy : (zip (loop_x g) (loop_y m p t cte g)).*2 = loop_y m p t cte g).
  { apply snd_zip. rewrite loop_x_length, loop_y_length. lia. }
  assert (Hlen : length (zip (loop_x g) (loop_y m p t cte g))
                 = (Z.to_nat N + (Z.to_nat N - 1))%nat).
  { rewrite length_zip_with, loop_x_length, loop_y_length, Hg. lia. }
  assert (H1 : (1 ≤ Z.to_nat N - 1)%nat) by lia.
  rewrite Hx, Hy.
  split; [reflexivity|]. split; [destruct cte; reflexivity|].
  split; [rewrite Hlen; lia|].
  split.
  { rewrite head_lookup.
    replace 0%nat with (length g - 1 - (Z.to_nat N - 1))%nat by lia.
    rewrite loop_x_upper by lia. exact Hlast. }
  split.
  { rewrite last_lookup, loop_x_length.
    replace (Init.Nat.pred (length g + (length g - 1)))
      with (length g - 1 + (Z.to_nat N - 1))%nat by lia.
    rewrite loop_x_lower by lia. exact Hlast. }
  split.
  { intros k x Hk.
    replace (Z.to_nat (N - 1)) with (Z.to_nat N - 1)%nat by lia.
    now apply (loop_x_zero hcs N k x HN0). }
  intros ->. split.
  - rewrite head_lookup.
    pose proof (coordinates_upper m p t true g _ _ Hinc Hlast) as Hu.
    rewrite Hg in Hu. unfold closed_at in Hu.
    rewrite Nat.eqb_refl in Hu. cbn [andb] in Hu.
    replace (Z.to_nat N - 1 - (Z.to_nat N - 1))%nat with 0%nat in Hu by lia.
    exact Hu.
  - rewrite last_lookup, Hlen.
    pose proof (coordinates_lower m p t true g _ _ Hinc H1 Hlast) as Hl.
    rewrite Hg in Hl. unfold closed_at in Hl.
    rewrite Nat.eqb_refl in Hl. cbn [andb] in Hl.
    rewrite <- Hl. f_equal. lia.
Qed.

Lemma NACA4_loop_witness :
  valid_designator "2412" = true ∧ (0 < 50)%Z
  ∧ (NACA4 "2412" 1 true true false ∅).1 = Ok [(0, 0)]
  ∧ ∃ m p t y_upper y_lower coordinates,
      decode "2412" = Ok (m, p, t)
      ∧ Np.add (camber_line m p (grid true 50))
          (thickness_distribution true t (grid true 50)) = Ok y_upper
      ∧ Np.subtract (camber_line m p (grid true 50))
          (thickness_distribution true t (grid true 50)) = Ok y_lower
      ∧ (NACA4 "2412" 50 true true false ∅).1 = Ok coordinates
      ∧ coordinates.*1 = reverse (grid true 50) ++ drop 1 (grid true 50)
      ∧ coordinates.*2
        = <[(length (reverse y_upper ++ drop 1 y_lower) - 1)%nat := 0]>
            (<[0%nat := 0]> (reverse y_upper ++ drop 1 y_lower))
      ∧ Z.of_nat (length coordinates) = (2 * 50 - 1)%Z
      ∧ head coordinates.*1 = Some 1
      ∧ last coordinates.*1 = Some 1
      ∧ (∀ k x, coordinates.*1 !! k = Some x → x = 0 ↔ k = Z.to_nat (50 - 1))
      ∧ (true = true →
         head coordinates = Some (1, 0) ∧ last coordinates = Some (1, 0)).
Proof.
  assert (Hv : valid_designator "2412" = true) by reflexivity.
  assert (H1 : (0 < 1)%Z) by lia. assert (H50 : (0 < 50)%Z) by lia.
  assert (H2 : (2 <= 50)%Z) by lia.
  split; [exact Hv|]. split; [exact H50|]. split.
  - exact (proj1 (NACA4_loop "2412" 1 true true false ∅ Hv H1) eq_refl).
  - exact (proj2 (NACA4_loop "2412" 50 true true false ∅ Hv H50) H2).
Defined.

Lemma spec_thickness_mid_chord :
  0 < spec_thickness (spec_c4 true) (IZR 12 / 100) (1 / 2).
Proof.
  assert (Hs : 7 / 10 < sqrt (1 / 2)).
  { rewrite <- (sqrt_square (7 / 10)) by lra. apply sqrt_lt_1_alt. lra. }
  unfold spec_thickness, spec_c4. lra.
Qed.

(** C3, as stated, fails twice. With [N = 1] the result is the leading
    edge alone, so it neither starts nor ends at [x = 1]. And the loop for
    ["0012"] with three linearly spaced stations encloses a positive signed
    area: it runs counter-clockwise, not clockwise. *)
Lemma NACA4_loop_single_point_and_orientation :
  (NACA4 "0012" 1 true true false ∅).1 = Ok [(0, 0)]
  ∧ ∃ coordinates,
      (NACA4 "0012" 3 false true false ∅).1 = Ok coordinates
      ∧ 0 < shoelace coordinates.
Proof.
  split.
  { unfold NACA4. now rewrite NACA4_coordinates_single_point. }
  assert (Hd : decode "0012" = Ok (0 / 100, 0 / 10, IZR 12 / 100))
    by (apply (decode_digits "0" "0" "12" 12); reflexivity).
  assert (H3 : (0 < 3)%Z) by lia. assert (H23 : (2 <= 3)%Z) by lia.
  set (m := 0 / 100) in *. set (p := 0 / 10) in *. set (t := IZR 12 / 100) in *.
  set (g := grid false 3).
  pose proof (grid_is_increasing false 3) as Hinc. fold g in Hinc.
  assert (G0 : g !! 0%nat = Some 0) by (apply grid_first; exact H3).
  assert (G1 : g !! 1%nat = Some (1 / 2)).
  { unfold g. rewrite grid_lookup by (simpl; lia). reflexivity. }
  assert (G2 : g !! 2%nat = Some 1) by (apply (grid_last false 3); exact H23).
  assert (Hg : length g = 3%nat) by apply grid_length.
  assert (Hc : ∀ v, spec_camber m p v = 0).
  { intros v. unfold spec_camber, m. rewrite decide_False by lra. reflexivity. }
  exists (zip (loop_x g) (loop_y m p t true g)).
  split; [apply NACA4_valid; [reflexivity|exact H3|exact Hd]|].
  assert (Hlen : length (zip (loop_x g) (loop_y m p t true g)) = 5%nat).
  { rewrite length_zip_with, loop_x_length, loop_y_length, Hg. reflexivity. }
  pose proof (coordinates_upper m p t true g 2 1 Hinc G2) as P0.
  pose proof (coordinates_upper m p t true g 1 _ Hinc G1) as P1.
  pose proof (coordinates_upper m p t true g 0 0 Hinc G0) as P2.
  pose proof (coordinates_lower m p t true g 1 _ Hinc (le_n 1) G1) as P3.
  pose proof (coordinates_lower m p t true g 2 1 Hinc (le_S 1 1 (le_n 1)) G2)
    as P4.
  remember (zip (loop_x g) (loop_y m p t true g)) as points eqn:Hpoints.
  clear Hpoints.
  rewrite Hg, !Hc in *. unfold closed_at in *.
  destruct points as [|a [|b [|c [|d [|e [|]]]]]]; try discriminate Hlen.
  simpl in P0, P1, P2, P3, P4.
  injection P0 as ->. injection P1 as ->. injection P2 as ->.
  injection P3 as ->. injection P4 as ->.
  rewrite spec_thickness_leading_edge. simpl.
  pose proof spec_thickness_mid_chord as Hpos. fold t in Hpos.
  unfold spec_c4 in Hpos. lra.
Qed.

(** * Further properties of [NACA4] *)

(** ** Outcomes of a call *)

Lemma single_character_literal (c : ascii) (z : Z) :
  Py.integer_literal (String c EmptyString) = Some z → Py.is_digit c = true.
Proof.
  destruct c as [[] [] [] [] [] [] [] []]; vm_compute; intros H;
    congruence.
Qed.

(** Lines 68-70 succeed on the decodable designators only. *)
Lemma decode_decodable (number : string) (mpt : R * R * R) :
  decode number = Ok mpt → decodable number = true.
Proof.
  unfold decode, decodable, Py.index, Py.float.
  destruct number as [|c0 [|c1 rest]]; simpl String.get;
    cbn [mbind result_bind]; try discriminate.
  - destruct (Py.integer_literal (String c0 "")); discriminate.
  - destruct (Py.integer_literal (String c0 "")) as [z0|] eqn:E0;
      cbn [mbind result_bind]; [|discriminate].
    destruct (Py.integer_literal (String c1 "")) as [z1|] eqn:E1;
      cbn [mbind result_bind]; [|discriminate].
    rewrite slice_from_2.
    destruct (Py.integer_literal rest) as [z|] eqn:E;
      cbn [mbind result_bind]; [|discriminate].
    intros _. cbn [list_ascii_of_string]. cbv iota beta.
    rewrite (single_character_literal c0 z0 E0),
      (single_character_literal c1 z1 E1).
    unfold Py.integer_literal in E. rewrite E. reflexivity.
Qed.

(** The exception lines 68-70 raise on a designator they cannot decode:
    [IndexError] when there is no second character to read after a first
    digit (or no character at all), [ValueError] from [float] otherwise. *)
Lemma decode_undecodable (number : string) :
  decodable number = false →
  decode number
  = Raise (match number with
           | EmptyString => IndexError_string
           | String c0 EmptyString =>
               if Py.is_digit c0 then IndexError_string
               else ValueError_float_literal
           | _ => ValueError_float_literal
           end).
Proof.
  intros H.
  destruct (decode number) as [mpt|e] eqn:Hd.
  { apply decode_decodable in Hd. congruence. }
  revert Hd. clear H.
  unfold decode, Py.index, Py.float.
  destruct number as [|c0 [|c1 rest]]; simpl String.get;
    cbn [mbind result_bind].
  - congruence.
  - destruct (Py.is_digit c0) eqn:H0.
    + rewrite (integer_literal_digit c0 H0). cbn [mbind result_bind]. congruence.
    + destruct (Py.integer_literal (String c0 "")) as [z0|] eqn:E0;
        cbn [mbind result_bind]; [|congruence].
      apply single_character_literal in E0. congruence.
  - destruct (Py.integer_literal (String c0 "")); cbn [mbind result_bind];
      [|congruence].
    destruct (Py.integer_literal (String c1 "")); cbn [mbind result_bind];
      [|congruence].
    destruct (Py.integer_literal (Py.slice_from _ 2));
      cbn [mbind result_bind mret result_ret]; [discriminate|congruence].
Qed.

Lemma in_range_nonempty (number : string) :
  in_range number = true → (1 ≤ String.length number)%nat.
Proof.
  destruct number; [discriminate|]. simpl. lia.
Qed.

(** X1. [NACA4] returns coordinates exactly when the designator passes
    the validation of line 62, lines 68-70 can decode it, and [N > 0];
    on every other input it raises. *)
Theorem NACA4_returns_iff (number : string) (N : Z) (hcs cte save : bool)
    (fs : gmap string string) :
  (∃ coordinates, (NACA4 number N hcs cte save fs).1 = Ok coordinates)
  ↔ valid_designator number = true ∧ (0 < N)%Z.
Proof.
  split.
  - intros [coordinates H]. unfold NACA4 in H.
    destruct (in_range number) eqn:Hr.
    + destruct (Z_le_gt_dec N 0) as [HN|HN].
      * destruct (NACA4_coordinates_rejected number N hcs cte (or_intror HN))
          as (e & He & _).
        rewrite He in H. discriminate H.
      * assert (HN' : (0 < N)%Z) by lia. split; [|exact HN'].
        unfold valid_designator. rewrite Hr. simpl.
        destruct (decode number) as [mpt|e] eqn:Hd.
        -- now apply (decode_decodable number mpt).
        -- rewrite (NACA4_coordinates_undecoded _ _ hcs cte _ Hr HN' Hd) in H.
           discriminate H.
    + destruct (NACA4_coordinates_rejected number N hcs cte (or_introl Hr))
        as (e & He & _).
      rewrite He in H. discriminate H.
  - intros [Hv HN].
    destruct (valid_designator_decodes number Hv) as (_ & m & p & t & Hd & _).
    eexists. exact (NACA4_valid _ _ _ _ _ _ _ _ _ Hv HN Hd).
Qed.

(** X2. Whatever the input, the only exceptions [NACA4] raises are those
    of the validation and of the decode step: the array operations of
    lines 111-130 never fail on a shape mismatch, and the assignments
    [y[0] = 0] and [y[-1] = 0] never meet an empty array. *)
Theorem NACA4_exceptions (number : string) (N : Z) (hcs cte save : bool)
    (fs : gmap string string) (e : exn) :
  (NACA4 number N hcs cte save fs).1 = Raise e →
  e = ValueError_int_literal ∨ e = ValueError_invalid_input
  ∨ e = IndexError_string ∨ e = ValueError_float_literal.
Proof.
  intros H. unfold NACA4 in H.
  destruct (in_range number) eqn:Hr.
  - destruct (Z_le_gt_dec N 0) as [HN|HN].
    + destruct (NACA4_coordinates_rejected number N hcs cte (or_intror HN))
        as (e' & He & Hv).
      rewrite He in H. simpl in H. injection H as <-.
      destruct e'; try discriminate Hv; auto.
    + assert (HN' : (0 < N)%Z) by lia.
      destruct (decode number) as [[[m p] t]|e'] eqn:Hd.
      * rewrite (NACA4_coordinates_decoded _ _ hcs cte _ _ _ Hr HN' Hd) in H.
        discriminate H.
      * rewrite (NACA4_coordinates_undecoded _ _ hcs cte _ Hr HN' Hd) in H.
        simpl in H. injection H as <-.
        destruct (decodable number) eqn:Hdec.
        -- destruct (decodable_decode number Hdec) as (? & ? & ? & Hok & _).
           congruence.
        -- rewrite (decode_undecodable number Hdec) in Hd. injection Hd as <-.
           repeat case_match; auto.
  - destruct (NACA4_coordinates_rejected number N hcs cte (or_introl Hr))
      as (e' & He & Hv).
    rewrite He in H. simpl in H. injection H as <-.
    destruct e'; try discriminate Hv; auto.
Qed.

Lemma NACA4_exceptions_witness :
  (NACA4 "5" 10 true true false ∅).1 = Raise IndexError_string
  ∧ (IndexError_string = ValueError_int_literal
     ∨ IndexError_string = ValueError_invalid_input
     ∨ IndexError_string = IndexError_string
     ∨ IndexError_string = ValueError_float_literal).
Proof.
  split; [reflexivity|].
  apply (NACA4_exceptions "5" 10 true true false ∅). reflexivity.
Defined.

(** X3. On a designator that passes validation, with [N > 0]: [NACA4]
    raises [IndexError] exactly when the designator is a single character
    (there is no [number[1]]), and the [ValueError] of [float] exactly when
    it has two characters or more that lines 68-70 cannot decode. *)
Theorem NACA4_decode_errors (number : string) (N : Z) (hcs cte save : bool)
    (fs : gmap string string) :
  in_range number = true → (0 < N)%Z →
  ((NACA4 number N hcs cte save fs).1 = Raise IndexError_string
   ↔ String.length number = 1%nat)
  ∧ ((NACA4 number N hcs cte save fs).1 = Raise ValueError_float_literal
     ↔ (2 ≤ String.length number)%nat ∧ decodable number = false).
Proof.
  intros Hr HN. pose proof (in_range_nonempty number Hr) as Hlen.
  unfold NACA4.
  destruct (decodable number) eqn:Hdec.
  - destruct (decodable_decode number Hdec) as (m & p & t & Hd & _).
    rewrite (NACA4_coordinates_decoded _ _ hcs cte _ _ _ Hr HN Hd). simpl.
    assert (2 ≤ String.length number)%nat.
    { unfold decodable in Hdec.
      destruct number as [|c0 [|c1 rest]]; simpl in *; try discriminate; lia. }
    split; split; intros; try discriminate; try lia.
  - pose proof (decode_undecodable number Hdec) as Hd.
    rewrite (NACA4_coordinates_undecoded _ _ hcs cte _ Hr HN Hd). simpl.
    destruct number as [|c0 [|c1 rest]]; simpl in Hlen |- *; [lia| |].
    + assert (H0 : Py.is_digit c0 = true).
      { unfold in_range in Hr.
        destruct (Py.integer_literal (String c0 "")) as [z|] eqn:E;
          [|discriminate].
        now apply (single_character_literal c0 z). }
      rewrite H0. split; split; intros; try reflexivity; try discriminate.
      lia.
    + split; split; intros; try discriminate; try reflexivity.
      split; [lia|reflexivity].
Qed.

Lemma NACA4_decode_errors_witness :
  in_range "5" = true ∧ (0 < 10)%Z
  ∧ ((NACA4 "5" 10 true true false ∅).1 = Raise IndexError_string
     ↔ String.length "5" = 1%nat)
  ∧ ((NACA4 "5" 10 true true false ∅).1 = Raise ValueError_float_literal
     ↔ (2 ≤ String.length "5")%nat ∧ decodable "5" = false).
Proof.
  split; [reflexivity|]. split; [lia|].
  apply (NACA4_decode_errors "5" 10 true true false ∅); [reflexivity|lia].
Defined.

Lemma three_digits_integer_literal (c0 c1 c2 : ascii) :
  Py.is_digit c0 = true → Py.is_digit c1 = true → Py.is_digit c2 = true →
  Py.signed_literal (Py.strip [c0; c1; c2])
  = Some (10 * (10 * Py.digit_val c0 + Py.digit_val c1) + Py.digit_val c2)%Z.
Proof.
  intros H0 H1 H2.
  destruct (digit_is_plain c0 H0) as (S0 & P0 & M0 & _).
  destruct (digit_is_plain c2 H2) as (S2 & _).
  unfold Py.strip. simpl. rewrite S0. simpl. rewrite S2. simpl.
  rewrite P0, M0, H0. simpl. now rewrite H1, H2.
Qed.

(** X4. A designator of three digits, not all zero, is not rejected
    although it lacks a fourth digit: it is read as camber digit, position
    digit and a one-digit thickness, and [NACA4] returns the [2N - 1]
    points of that airfoil. *)
Theorem NACA4_three_digits (c0 c1 c2 : ascii) (N : Z) (hcs cte save : bool)
    (fs : gmap string string) :
  Py.is_digit c0 = true → Py.is_digit c1 = true → Py.is_digit c2 = true →
  String c0 (String c1 (String c2 EmptyString)) ≠ "000" → (0 < N)%Z →
  decode (String c0 (String c1 (String c2 EmptyString)))
  = Ok (IZR (Py.digit_val c0) / 100, IZR (Py.digit_val c1) / 10,
        IZR (Py.digit_val c2) / 100)
  ∧ ∃ coordinates,
      (NACA4 (String c0 (String c1 (String c2 EmptyString))) N hcs cte save fs).1
      = Ok coordinates
      ∧ Z.of_nat (length coordinates) = (2 * N - 1)%Z.
Proof.
  intros H0 H1 H2 Hne HN.
  set (number := String c0 (String c1 (String c2 EmptyString))) in *.
  assert (Hd : decode number
               = Ok (IZR (Py.digit_val c0) / 100, IZR (Py.digit_val c1) / 10,
                     IZR (Py.digit_val c2) / 100)).
  { apply decode_digits; try assumption. now apply integer_literal_digit. }
  split; [exact Hd|].
  assert (Hr : in_range number = true).
  { unfold in_range, Py.integer_literal, number. simpl list_ascii_of_string.
    rewrite three_digits_integer_literal by assumption.
    pose proof (digit_val_range c0 H0). pose proof (digit_val_range c1 H1).
    pose proof (digit_val_range c2 H2).
    apply andb_true_iff. split; [|lia]. apply Z.ltb_lt.
    destruct (Z.eq_dec (Py.digit_val c0) 0%Z) as [E0|]; [|lia].
    destruct (Z.eq_dec (Py.digit_val c1) 0%Z) as [E1|]; [|lia].
    destruct (Z.eq_dec (Py.digit_val c2) 0%Z) as [E2|]; [|lia].
    apply digit_val_zero in E0, E1, E2; try assumption.
    subst. now contradict Hne. }
  unfold NACA4. rewrite (NACA4_coordinates_decoded _ _ _ _ _ _ _ Hr HN Hd).
  eexists. split; [reflexivity|].
  rewrite (NACA4_coordinates_length number). lia.
Qed.

Lemma NACA4_three_digits_witness :
  Py.is_digit "1" = true ∧ Py.is_digit "2" = true ∧ Py.is_digit "3" = true
  ∧ "123" ≠ "000" ∧ (0 < 10)%Z
  ∧ decode "123" = Ok (IZR (Py.digit_val "1") / 100,
                       IZR (Py.digit_val "2") / 10,
                       IZR (Py.digit_val "3") / 100)
  ∧ ∃ coordinates,
      (NACA4 "123" 10 true true false ∅).1 = Ok coordinates
      ∧ Z.of_nat (length coordinates) = (2 * 10 - 1)%Z.
Proof.
  split; [reflexivity|]. split; [reflexivity|]. split; [reflexivity|].
  split; [discriminate|]. split; [lia|].
  apply (NACA4_three_digits "1" "2" "3" 10 true true false ∅);
    [reflexivity|reflexivity|reflexivity|discriminate|lia].
Defined.

(** ** Sign of the thickness *)

(** The thickness polynomial in [u = sqrt x], as a product. *)
Lemma thickness_polynomial_factor (c4 u : R) :
  0.29690 * u - 0.12600 * (u * u) - 0.35160 * (u * u) ^ 2
  + 0.28430 * (u * u) ^ 3 - c4 * (u * u) ^ 4
  = u * (1 - u)
      * (0.2969 + (u + u ^ 2) * (0.1709 - 0.1807 * u ^ 2)
         + 0.1036 * (u ^ 5 + u ^ 6))
    + (0.1036 - c4) * u ^ 8.
Proof. nra. Qed.

Lemma thickness_cofactor_positive (u : R) :
  0 <= u <= 1 →
  0.27 <= 0.2969 + (u + u ^ 2) * (0.1709 - 0.1807 * u ^ 2)
          + 0.1036 * (u ^ 5 + u ^ 6).
Proof.
  intros [H0 H1].
  assert (Hu2 : 0 <= u ^ 2 <= 1) by nra.
  assert (Hs : 0 <= u + u ^ 2 <= 2) by lra.
  assert (Hf : -0.0098 <= 0.1709 - 0.1807 * u ^ 2) by lra.
  assert (Hp : -0.0196 <= (u + u ^ 2) * (0.1709 - 0.1807 * u ^ 2)) by nra.
  assert (H5 : 0 <= u ^ 5) by (apply pow_le; exact H0).
  assert (H6 : 0 <= u ^ 6) by (apply pow_le; exact H0).
  lra.
Qed.

(** The half thickness is never negative on the chord, and it is positive
    strictly inside it when the section has any thickness. *)
Lemma spec_thickness_nonneg (cte : bool) (t x : R) :
  0 <= t → 0 <= x <= 1 → 0 <= spec_thickness (spec_c4 cte) t x.
Proof.
  intros Ht [H0 H1].
  assert (Hu0 : 0 <= sqrt x) by apply sqrt_pos.
  assert (Hu1 : sqrt x <= 1) by (rewrite <- sqrt_1; now apply sqrt_le_1_alt).
  assert (Hx : x = sqrt x * sqrt x) by (symmetry; now apply sqrt_sqrt).
  set (u := sqrt x) in *.
  unfold spec_thickness. rewrite Hx at 2 3 4 5.
  rewrite thickness_polynomial_factor.
  pose proof (thickness_cofactor_positive u (conj Hu0 Hu1)) as Hq.
  assert (H8 : 0 <= u ^ 8) by (apply pow_le; exact Hu0).
  assert (Hc : 0 <= 0.1036 - spec_c4 cte) by (destruct cte; simpl; lra).
  apply Rmult_le_pos; [lra|].
  apply Rplus_le_le_0_compat; [|now apply Rmult_le_pos].
  apply Rmult_le_pos; [apply Rmult_le_pos; lra|lra].
Qed.

Lemma spec_thickness_positive (cte : bool) (t x : R) :
  0 < t → 0 < x < 1 → 0 < spec_thickness (spec_c4 cte) t x.
Proof.
  intros Ht [H0 H1].
  assert (Hu0 : 0 < sqrt x) by now apply sqrt_lt_R0.
  assert (Hu1 : sqrt x < 1).
  { rewrite <- sqrt_1. apply sqrt_lt_1_alt. lra. }
  assert (Hx : x = sqrt x * sqrt x) by (symmetry; apply sqrt_sqrt; lra).
  set (u := sqrt x) in *.
  unfold spec_thickness. rewrite Hx at 2 3 4 5.
  rewrite thickness_polynomial_factor.
  pose proof (thickness_cofactor_positive u ltac:(lra)) as Hq.
  assert (H8 : 0 <= u ^ 8) by (apply pow_le; lra).
  assert (Hc : 0 <= 0.1036 - spec_c4 cte) by (destruct cte; simpl; lra).
  apply Rmult_lt_0_compat; [lra|].
  apply Rplus_lt_le_0_compat; [|now apply Rmult_le_pos].
  apply Rmult_lt_0_compat; [apply Rmult_lt_0_compat; lra|lra].
Qed.

(** *** The thickness field is never negative *)

Lemma more_digits_plain (n : nat) (l : list ascii) (acc z : Z) :
  (length l ≤ n)%nat → (0 <= acc)%Z → Py.more_digits l acc = Some z →
  (0 <= z)%Z
  ∧ Forall (λ c, Py.is_digit c = true ∨ Ascii.eqb c "_" = true) l.
Proof.
  revert l acc. induction n as [|n IH]; intros l acc Hn Hacc H.
  - destruct l; [|simpl in Hn; lia]. simpl in H. injection H as <-.
    split; [exact Hacc|constructor].
  - destruct l as [|c l]; simpl in H, Hn.
    { injection H as <-. split; [exact Hacc|constructor]. }
    destruct (Py.is_digit c) eqn:Hc.
    + pose proof (digit_val_range c Hc).
      assert (Hn' : (length l ≤ n)%nat) by lia.
      assert (Ha : (0 <= 10 * acc + Py.digit_val c)%Z) by lia.
      destruct (IH l _ Hn' Ha H) as [Hz Hl].
      split; [exact Hz|]. constructor; [now left|exact Hl].
    + destruct (Ascii.eqb c "_") eqn:Hu; [|discriminate].
      destruct l as [|d l]; [discriminate|].
      destruct (Py.is_digit d) eqn:Hd; [|discriminate].
      pose proof (digit_val_range d Hd). simpl in Hn.
      assert (Hn' : (length l ≤ n)%nat) by lia.
      assert (Ha : (0 <= 10 * acc + Py.digit_val d)%Z) by lia.
      destruct (IH l _ Hn' Ha H) as [Hz Hl].
      split; [exact Hz|].
      constructor; [now right|]. constructor; [now left|exact Hl].
Qed.

Lemma lstrip_app_plain (k : list ascii) (c : ascii) :
  Py.is_space c = false → Py.lstrip (k ++ [c]) = Py.lstrip k ++ [c].
Proof.
  intros Hc. induction k as [|a k IH]; simpl.
  - now rewrite Hc.
  - destruct (Py.is_space a); [exact IH|reflexivity].
Qed.

Lemma strip_cons_plain (c : ascii) (l : list ascii) :
  Py.is_space c = false → Py.strip (c :: l) = c :: rev (Py.lstrip (rev l)).
Proof.
  intros Hc. unfold Py.strip. simpl Py.lstrip at 2. rewrite Hc.
  simpl rev at 2. rewrite lstrip_app_plain by exact Hc.
  now rewrite rev_unit.
Qed.

Lemma lstrip_keeps (P : ascii → Prop) (l : list ascii) :
  Forall P l → Forall P (Py.lstrip l).
Proof.
  induction 1 as [|c l Hc Hl IH]; simpl; [constructor|].
  destruct (Py.is_space c); [exact IH|now constructor].
Qed.

Lemma strip_keeps (P : ascii → Prop) (l : list ascii) :
  Forall P l → Forall P (Py.strip l).
Proof.
  intros H. unfold Py.strip.
  apply Forall_rev, lstrip_keeps, Forall_rev, lstrip_keeps, H.
Qed.

Lemma unsigned_character (c : ascii) :
  Py.is_space c = true ∨ Py.is_digit c = true ∨ Ascii.eqb c "_" = true →
  Ascii.eqb c "+" = false ∧ Ascii.eqb c "-" = false.
Proof.
  destruct c as [[] [] [] [] [] [] [] []]; vm_compute;
    intros [H|[H|H]]; split; congruence.
Qed.

(** The number read from the third character on is not negative: a sign
    there would have made [int] reject the whole designator. *)
Lemma valid_designator_thickness_nonneg (number : string) (z : Z) :
  valid_designator number = true →
  Py.integer_literal (Py.slice_from number 2) = Some z → (0 <= z)%Z.
Proof.
  intros Hv Hz.
  destruct (valid_designator_fields number Hv)
    as (c0 & c1 & rest & z' & -> & H0 & H1 & _ & Hr & _).
  rewrite slice_from_2 in Hz.
  destruct (digit_is_plain c0 H0) as (S0 & P0 & M0 & _).
  destruct (digit_is_plain c1 H1) as (S1 & _).
  apply in_range_spec in Hr as (n & Hn & _).
  unfold Py.integer_literal in Hn, Hz. simpl list_ascii_of_string in Hn.
  rewrite strip_cons_plain in Hn by exact S0.
  assert (E : rev (Py.lstrip (rev (c1 :: list_ascii_of_string rest)))
              = c1 :: rev (Py.lstrip (rev (list_ascii_of_string rest)))).
  { simpl rev at 2. rewrite lstrip_app_plain by exact S1. now rewrite rev_unit. }
  rewrite E in Hn. clear E.
  unfold Py.signed_literal in Hn. rewrite P0, M0 in Hn.
  simpl in Hn. rewrite H0, H1 in Hn.
  pose proof (digit_val_range c0 H0). pose proof (digit_val_range c1 H1).
  apply (more_digits_plain _ _ _ _ (le_n _)) in Hn as [_ Hplain]; [|lia].
  set (l := list_ascii_of_string rest) in *.
  assert (Hall : Forall (λ c, Py.is_space c = true ∨ Py.is_digit c = true
                              ∨ Ascii.eqb c "_" = true) l).
  { rewrite <- (rev_involutive l). apply Forall_rev.
    apply lstrip_Forall; [intros c Hc; now left|].
    rewrite <- (rev_involutive (Py.lstrip (rev l))). apply Forall_rev.
    eapply Forall_impl; [exact Hplain|]. simpl. intros c Hc. now right. }
  apply (strip_keeps _ _) in Hall.
  destruct (Py.strip l) as [|c k]; [discriminate|].
  apply Forall_cons in Hall as [Hc _].
  destruct (unsigned_character c Hc) as [Hp Hm].
  unfold Py.signed_literal in Hz. rewrite Hp, Hm in Hz.
  simpl in Hz. destruct (Py.is_digit c) eqn:Hd; [|discriminate].
  pose proof (digit_val_range c Hd).
  apply (more_digits_plain _ _ _ _ (le_n _)) in Hz as [Hz _]; [exact Hz|lia].
Qed.

Lemma valid_designator_ranges (number : string) :
  valid_designator number = true →
  ∃ m p t, decode number = Ok (m, p, t) ∧ 0 <= m < 1 ∧ 0 <= p < 1 ∧ 0 <= t.
Proof.
  intros Hv.
  destruct (valid_designator_fields number Hv)
    as (c0 & c1 & rest & z & Hnum & H0 & H1 & Hz & Hr & Hd).
  pose proof (valid_designator_thickness_nonneg number z Hv Hz) as Hz0.
  pose proof (digit_val_range c0 H0) as [A0 B0].
  pose proof (digit_val_range c1 H1) as [A1 B1].
  apply IZR_le in A0, B0, A1, B1, Hz0.
  do 3 eexists. split; [exact Hd|]. lra.
Qed.

(** Interior stations lie strictly inside the chord. *)
Lemma grid_interior (hcs : bool) (N : Z) (i : nat) (x : R) :
  (0 < i)%nat → (i < Z.to_nat N - 1)%nat → grid hcs N !! i = Some x →
  0 < x < 1.
Proof.
  intros H0 H1 Hx. assert (HN : (2 <= N)%Z) by lia. split.
  - apply (grid_increasing hcs N 0 i 0 x); [lia| |exact Hx].
    apply grid_first. lia.
  - apply (grid_increasing hcs N i (Z.to_nat N - 1) x 1); [lia|exact Hx|].
    now apply grid_last.
Qed.

(** X5. At every station the upper point of the result lies on or above
    the lower point with the same abscissa, and strictly above it at every
    station strictly between the leading and the trailing edge when the
    thickness field is positive. *)
Theorem NACA4_upper_above_lower (number : string) (N : Z)
    (hcs cte save : bool) (fs : gmap string string) :
  valid_designator number = true → (0 < N)%Z →
  ∃ m p t coordinates,
    decode number = Ok (m, p, t)
    ∧ 0 <= t
    ∧ (NACA4 number N hcs cte save fs).1 = Ok coordinates
    ∧ ∀ (i : nat) (x : R),
        grid hcs N !! i = Some x →
        ∃ y_up y_low,
          coordinates !! (Z.to_nat N - 1 - i)%nat = Some (x, y_up)
          ∧ coordinates !! (Z.to_nat N - 1 + i)%nat = Some (x, y_low)
          ∧ y_low <= y_up
          ∧ (0 < t → (0 < i)%nat → (i < Z.to_nat N - 1)%nat → y_low < y_up).
Proof.
  intros Hv HN.
  destruct (valid_designator_ranges number Hv) as (m & p & t & Hd & _ & _ & Ht).
  pose proof (grid_is_increasing hcs N) as Hinc.
  exists m, p, t, (zip (loop_x (grid hcs N)) (loop_y m p t cte (grid hcs N))).
  split; [exact Hd|]. split; [exact Ht|].
  split; [exact (NACA4_valid _ _ _ _ _ _ _ _ _ Hv HN Hd)|].
  intros i x Hx.
  pose proof (grid_bounds hcs N i x Hx) as Hb.
  pose proof (spec_thickness_nonneg cte t x Ht Hb) as Hth.
  pose proof (coordinates_upper m p t cte _ _ _ Hinc Hx) as Hu.
  rewrite grid_length in Hu.
  destruct (decide (i = 0%nat)) as [->|Hi].
  - eexists _, _. split; [exact Hu|].
    replace (Z.to_nat N - 1 + 0)%nat with (Z.to_nat N - 1 - 0)%nat by lia.
    split; [exact Hu|]. split; [lra|]. intros _ H. lia.
  - assert (Hi1 : (1 ≤ i)%nat) by lia.
    pose proof (coordinates_lower m p t cte _ _ _ Hinc Hi1 Hx) as Hl.
    rewrite grid_length in Hl.
    eexists _, _. split; [exact Hu|]. split; [exact Hl|].
    unfold closed_at. split.
    + case_match; lra.
    + intros Ht0 _ Hlt.
      replace (i =? Z.to_nat N - 1)%nat with false
        by (symmetry; apply Nat.eqb_neq; lia).
      rewrite andb_false_r.
      assert (Hin : 0 < x < 1) by (apply (grid_interior hcs N i x); lia || exact Hx).
      pose proof (spec_thickness_positive cte t x Ht0 Hin). lra.
Qed.

Lemma NACA4_upper_above_lower_witness :
  valid_designator "2412" = true ∧ (0 < 50)%Z
  ∧ ∃ m p t coordinates,
      decode "2412" = Ok (m, p, t)
      ∧ 0 <= t
      ∧ (NACA4 "2412" 50 true true false ∅).1 = Ok coordinates
      ∧ ∀ (i : nat) (x : R),
          grid true 50 !! i = Some x →
          ∃ y_up y_low,
            coordinates !! (Z.to_nat 50 - 1 - i)%nat = Some (x, y_up)
            ∧ coordinates !! (Z.to_nat 50 - 1 + i)%nat = Some (x, y_low)
            ∧ y_low <= y_up
            ∧ (0 < t → (0 < i)%nat → (i < Z.to_nat 50 - 1)%nat →
               y_low < y_up).
Proof.
  split; [reflexivity|]. split; [lia|].
  apply (NACA4_upper_above_lower "2412" 50 true true false ∅);
    [reflexivity|lia].
Defined.

(** ** Range of the camber *)

Lemma spec_camber_range (m p x : R) :
  0 <= m → 0 <= x <= 1 → 0 <= spec_camber m p x <= m.
Proof.
  intros Hm [H0 H1]. unfold spec_camber.
  case_decide as Hc; [|lra]. destruct Hc as [[Hp0 Hp1] [Hm0 Hm1]].
  case_decide as Hx.
  - assert (Hk : 0 < p ^ 2) by nra.
    set (k := m / p ^ 2).
    assert (Hk0 : 0 <= k) by (unfold k, Rdiv; apply Rmult_le_pos; [lra|];
          left; apply Rinv_0_lt_compat; exact Hk).
    assert (Hkm : k * p ^ 2 = m) by (unfold k; field; lra).
    assert (HA : 0 <= 2 * p * x - x ^ 2 <= p ^ 2) by nra.
    split; [apply Rmult_le_pos; lra|].
    rewrite <- Hkm. apply Rmult_le_compat_l; lra.
  - assert (Hk : 0 < (1 - p) ^ 2) by nra.
    set (k := m / (1 - p) ^ 2).
    assert (Hk0 : 0 <= k) by (unfold k, Rdiv; apply Rmult_le_pos; [lra|];
          left; apply Rinv_0_lt_compat; exact Hk).
    assert (Hkm : k * (1 - p) ^ 2 = m) by (unfold k; field; lra).
    assert (HA : 0 <= 1 - 2 * p + 2 * p * x - x ^ 2 <= (1 - p) ^ 2) by nra.
    split; [apply Rmult_le_pos; lra|].
    rewrite <- Hkm. apply Rmult_le_compat_l; lra.
Qed.

Lemma camber_branches_meet (m p : R) :
  0 < p < 1 →
  (m / p ^ 2) * (2 * p * p - p ^ 2) = m
  ∧ (m / (1 - p) ^ 2) * ((1 - 2 * p) + 2 * p * p - p ^ 2) = m.
Proof. intros [H0 H1]. split; field; lra. Qed.

(** X6. At every station the camber lies between 0 and the maximum
    camber [m] of the designator; both camber formulas take the value [m]
    at [x = p], so a station equal to [p] carries exactly [m] whichever
    branch it is given to. *)
Theorem camber_line_range (number : string) :
  valid_designator number = true →
  ∃ m p t,
    decode number = Ok (m, p, t)
    ∧ (0 < p →
       (m / p ^ 2) * (2 * p * p - p ^ 2) = m
       ∧ (m / (1 - p) ^ 2) * ((1 - 2 * p) + 2 * p * p - p ^ 2) = m)
    ∧ ∀ (N : Z) (hcs : bool) (i : nat) (x : R),
        grid hcs N !! i = Some x →
        ∃ camber,
          camber_line m p (grid hcs N) !! i = Some camber
          ∧ 0 <= camber <= m
          ∧ (x = p → 0 < p → camber = m).
Proof.
  intros Hv.
  destruct (valid_designator_ranges number Hv)
    as (m & p & t & Hd & Hm & Hp & _).
  exists m, p, t. split; [exact Hd|].
  split; [intros Hp0; apply camber_branches_meet; lra|].
  intros N hcs i x Hx. exists (spec_camber m p x).
  split; [apply camber_lookup; [apply grid_is_increasing|exact Hx]|].
  split; [apply spec_camber_range; [lra|exact (grid_bounds hcs N i x Hx)]|].
  intros -> Hp0. unfold spec_camber. case_decide as Hc.
  - rewrite decide_False by lra. apply camber_branches_meet. lra.
  - lra.
Qed.

Lemma camber_line_range_witness :
  valid_designator "2412" = true
  ∧ ∃ m p t,
      decode "2412" = Ok (m, p, t)
      ∧ (0 < p →
         (m / p ^ 2) * (2 * p * p - p ^ 2) = m
         ∧ (m / (1 - p) ^ 2) * ((1 - 2 * p) + 2 * p * p - p ^ 2) = m)
      ∧ ∀ (N : Z) (hcs : bool) (i : nat) (x : R),
          grid hcs N !! i = Some x →
          ∃ camber,
            camber_line m p (grid hcs N) !! i = Some camber
            ∧ 0 <= camber <= m
            ∧ (x = p → 0 < p → camber = m).
Proof.
  split; [reflexivity|]. apply (camber_line_range "2412"). reflexivity.
Defined.

(** ** Order and range of the abscissas *)

Lemma loop_x_lookup (g : list R) (k : nat) :
  loop_x g !! k
  = if (k <? length g)%nat then g !! (length g - 1 - k)%nat
    else g !! (k - length g + 1)%nat.
Proof.
  unfold loop_x. destruct (Nat.ltb_spec k (length g)) as [H|H].
  - rewrite lookup_app_l by (rewrite length_reverse; lia).
    rewrite reverse_lookup by lia. f_equal. lia.
  - rewrite lookup_app_r by (rewrite length_reverse; lia).
    rewrite length_reverse, lookup_drop. f_equal. lia.
Qed.

Lemma coordinates_abscissa (g y : list R) (k : nat) (a : R * R) :
  zip (loop_x g) y !! k = Some a → loop_x g !! k = Some a.1.
Proof.
  intros H. destruct a as [x v]. apply lookup_zip_with_Some in H
    as (x' & v' & E & Hx & _). injection E as -> ->. exact Hx.
Qed.

(** X7. Every abscissa of the result lies in [[0, 1]]; the abscissas
    strictly decrease from the first point down to the leading edge at
    index [N - 1] and strictly increase from there to the last point. *)
Theorem NACA4_traversal (number : string) (N : Z)
    (hcs cte save : bool) (fs : gmap string string) :
  valid_designator number = true → (0 < N)%Z →
  ∃ coordinates,
    (NACA4 number N hcs cte save fs).1 = Ok coordinates
    ∧ (∀ k a, coordinates !! k = Some a → 0 <= a.1 <= 1)
    ∧ (∀ k a b,
         (S k ≤ Z.to_nat N - 1)%nat →
         coordinates !! k = Some a → coordinates !! S k = Some b →
         b.1 < a.1)
    ∧ (∀ k a b,
         (Z.to_nat N - 1 ≤ k)%nat →
         coordinates !! k = Some a → coordinates !! S k = Some b →
         a.1 < b.1).
Proof.
  intros Hv HN.
  destruct (valid_designator_decodes number Hv) as (_ & m & p & t & Hd & _).
  set (g := grid hcs N).
  assert (Hg : length g = Z.to_nat N) by apply grid_length.
  exists (zip (loop_x g) (loop_y m p t cte g)).
  split; [exact (NACA4_valid _ _ _ _ _ _ _ _ _ Hv HN Hd)|].
  split; [|split].
  - intros k a Ha. apply coordinates_abscissa in Ha.
    rewrite loop_x_lookup in Ha.
    destruct (k <? length g)%nat; exact (grid_bounds hcs N _ _ Ha).
  - intros k a b Hk Ha Hb. apply coordinates_abscissa in Ha, Hb.
    rewrite loop_x_lookup, Hg in Ha, Hb.
    replace (k <? Z.to_nat N)%nat with true in Ha
      by (symmetry; apply Nat.ltb_lt; lia).
    replace (S k <? Z.to_nat N)%nat with true in Hb
      by (symmetry; apply Nat.ltb_lt; lia).
    assert (Hlt : (Z.to_nat N - 1 - S k < Z.to_nat N - 1 - k)%nat) by lia.
    exact (grid_increasing hcs N _ _ _ _ Hlt Hb Ha).
  - intros k a b Hk Ha Hb. apply coordinates_abscissa in Ha, Hb.
    pose proof (lookup_lt_Some _ _ _ Hb) as Hlt.
    rewrite loop_x_length, Hg in Hlt.
    rewrite loop_x_lookup, Hg in Ha, Hb.
    replace (S k <? Z.to_nat N)%nat with false in Hb
      by (symmetry; apply Nat.ltb_ge; lia).
    destruct (Nat.ltb_spec k (Z.to_nat N)) as [H|H].
    + assert (Hi : (Z.to_nat N - 1 - k < S k - Z.to_nat N + 1)%nat) by lia.
      exact (grid_increasing hcs N _ _ _ _ Hi Ha Hb).
    + assert (Hi : (k - Z.to_nat N + 1 < S k - Z.to_nat N + 1)%nat) by lia.
      exact (grid_increasing hcs N _ _ _ _ Hi Ha Hb).
Qed.

Lemma NACA4_traversal_witness :
  valid_designator "2412" = true ∧ (0 < 50)%Z
  ∧ ∃ coordinates,
      (NACA4 "2412" 50 true true false ∅).1 = Ok coordinates
      ∧ (∀ k a, coordinates !! k = Some a → 0 <= a.1 <= 1)
      ∧ (∀ k a b,
           (S k ≤ Z.to_nat 50 - 1)%nat →
           coordinates !! k = Some a → coordinates !! S k = Some b →
           b.1 < a.1)
      ∧ (∀ k a b,
           (Z.to_nat 50 - 1 ≤ k)%nat →
           coordinates !! k = Some a → coordinates !! S k = Some b →
           a.1 < b.1).
Proof.
  split; [reflexivity|]. split; [lia|].
  apply (NACA4_traversal "2412" 50 true true false ∅); [reflexivity|lia].
Defined.

(** ** The spacing of the stations *)

Lemma spec_station_mirror (hcs : bool) (N : Z) (i : nat) :
  (2 <= N)%Z → (i < Z.to_nat N)%nat →
  spec_station hcs N i + spec_station hcs N (Z.to_nat N - 1 - i) = 1.
Proof.
  intros HN Hi.
  assert (Hd : IZR (N - 1) ≠ 0) by (apply not_0_IZR; lia).
  assert (Hj : INR (Z.to_nat N - 1 - i) = IZR (N - 1) - INR i).
  { rewrite minus_INR by lia. now rewrite INR_pred_to_nat by lia. }
  destruct hcs; simpl.
  - unfold spec_half_cosine_station. rewrite Hj.
    replace (PI * (IZR (N - 1) - INR i) / IZR (N - 1))
      with (PI - PI * INR i / IZR (N - 1)) by (field; exact Hd).
    rewrite Rtrigo_facts.cos_pi_minus. lra.
  - unfold spec_linear_station. rewrite Hj. field. exact Hd.
Qed.

(** X8. In exact arithmetic the grid is symmetric about mid-chord under
    either spacing: for [N >= 2], station [i] and station [N - 1 - i] add
    up to 1. *)
Theorem grid_mirror (hcs : bool) (N : Z) (i : nat) (a b : R) :
  (2 <= N)%Z →
  grid hcs N !! i = Some a → grid hcs N !! (Z.to_nat N - 1 - i)%nat = Some b →
  a + b = 1.
Proof.
  intros HN Ha Hb.
  pose proof (lookup_lt_Some _ _ _ Ha) as Hi. rewrite grid_length in Hi.
  rewrite grid_lookup in Ha, Hb by lia.
  injection Ha as <-. injection Hb as <-.
  now apply spec_station_mirror.
Qed.

Lemma grid_mirror_witness :
  (2 <= 2)%Z ∧ grid true 2 !! 0%nat = Some 0
  ∧ grid true 2 !! (Z.to_nat 2 - 1 - 0)%nat = Some 1 ∧ 0 + 1 = 1.
Proof.
  assert (H2 : (2 <= 2)%Z) by lia. assert (H0 : (0 < 2)%Z) by lia.
  split; [exact H2|].
  split; [exact (grid_first true 2 H0)|].
  split; [exact (grid_last true 2 H2)|].
  exact (grid_mirror true 2 0 0 1 H2 (grid_first true 2 H0)
           (grid_last true 2 H2)).
Defined.

(** ** The open trailing edge *)

Lemma spec_thickness_open_trailing_edge (t : R) :
  spec_thickness (spec_c4 false) t 1 = 0.0105 * t.
Proof. unfold spec_thickness, spec_c4. rewrite sqrt_1. lra. Qed.

(** X10. With [closed_trailing_edge] off and [N >= 2] the result starts at
    [(1, 0.0105 t)] and ends at [(1, -0.0105 t)], [t] being the thickness
    field: the trailing edge stays open by [0.021 t]. *)
Theorem NACA4_open_trailing_edge (number : string) (N : Z)
    (hcs save : bool) (fs : gmap string string) :
  valid_designator number = true → (2 <= N)%Z →
  ∃ m p t coordinates,
    decode number = Ok (m, p, t)
    ∧ (NACA4 number N hcs false save fs).1 = Ok coordinates
    ∧ head coordinates = Some (1, 0.0105 * t)
    ∧ last coordinates = Some (1, - (0.0105 * t)).
Proof.
  intros Hv HN. assert (HN0 : (0 < N)%Z) by lia.
  destruct (valid_designator_decodes number Hv) as (_ & m & p & t & Hd & _).
  pose proof (grid_is_increasing hcs N) as Hinc.
  pose proof (grid_last hcs N HN) as Hlast.
  exists m, p, t, (zip (loop_x (grid hcs N)) (loop_y m p t false (grid hcs N))).
  split; [exact Hd|].
  split; [exact (NACA4_valid _ _ _ _ _ _ _ _ _ Hv HN0 Hd)|].
  assert (H1 : (1 ≤ Z.to_nat N - 1)%nat) by lia.
  pose proof (coordinates_upper m p t false _ _ _ Hinc Hlast) as Hu.
  pose proof (coordinates_lower m p t false _ _ _ Hinc H1 Hlast) as Hl.
  rewrite grid_length, spec_camber_trailing_edge,
    spec_thickness_open_trailing_edge in Hu, Hl.
  unfold closed_at in Hu, Hl. cbn [andb] in Hu, Hl.
  replace (Z.to_nat N - 1 - (Z.to_nat N - 1))%nat with 0%nat in Hu by lia.
  split.
  - rewrite head_lookup, Hu. do 2 f_equal. lra.
  - assert (Hlen : length (zip (loop_x (grid hcs N))
                              (loop_y m p t false (grid hcs N)))
                   = (Z.to_nat N + (Z.to_nat N - 1))%nat).
    { rewrite length_zip_with, loop_x_length, loop_y_length, grid_length. lia. }
    rewrite last_lookup, Hlen.
    replace (Init.Nat.pred (Z.to_nat N + (Z.to_nat N - 1)))
      with (Z.to_nat N - 1 + (Z.to_nat N - 1))%nat by lia.
    rewrite Hl. do 2 f_equal. lra.
Qed.

Lemma NACA4_open_trailing_edge_witness :
  valid_designator "2412" = true ∧ (2 <= 50)%Z
  ∧ ∃ m p t coordinates,
      decode "2412" = Ok (m, p, t)
      ∧ (NACA4 "2412" 50 true false false ∅).1 = Ok coordinates
      ∧ head coordinates = Some (1, 0.0105 * t)
      ∧ last coordinates = Some (1, - (0.0105 * t)).
Proof.
  split; [reflexivity|]. split; [lia|].
  apply (NACA4_open_trailing_edge "2412" 50 true false ∅); [reflexivity|lia].
Defined.

Lemma PI_upper_bound : PI <= 167 / 50.
Proof.
  pose proof (PI_ineq 2) as [_ H].
  unfold sum_f_R0, tg_alt, PI_tg in H. simpl in H. lra.
Qed.

(** The first half-cosine station after the leading edge is nearer to it
    than the first linear one, from four stations on. *)
Lemma spec_station_first_gap (N : Z) :
  (4 <= N)%Z → spec_station true N 1 < spec_station false N 1.
Proof.
  intros HN. simpl. unfold spec_half_cosine_station, spec_linear_station.
  change (INR 1) with 1.
  assert (Hd : 3 <= IZR (N - 1)) by (apply IZR_le; lia).
  set (d := IZR (N - 1)) in *.
  set (s := PI / (2 * d)).
  pose proof PI_RGT_0 as Hpi0. pose proof PI_upper_bound as Hpi.
  assert (Hi : 0 < / d <= 1 / 3).
  { split; [apply Rinv_0_lt_compat; lra|].
    replace (1 / 3) with (/ 3) by lra. apply Rinv_le_contravar; lra. }
  assert (Hs : s = PI * / d / 2) by (unfold s; field; lra).
  assert (Hs0 : 0 < s) by (rewrite Hs; nra).
  assert (HsPI : s < PI) by (rewrite Hs; nra).
  replace (PI * 1 / d) with (2 * s) by (unfold s; field; lra).
  rewrite cos_2a_sin.
  pose proof (sin_lt_x s Hs0) as Hlt.
  pose proof (sin_gt_0 s Hs0 HsPI) as Hgt.
  assert (Hsq : sin s * sin s < s * s) by nra.
  assert (Hle : s * s <= / d).
  { rewrite Hs. assert (PI * PI <= 12) by nra. nra. }
  unfold Rdiv at 2. lra.
Qed.

(** X9. From four stations on, half-cosine spacing puts the station next
    to the leading edge, and the one next to the trailing edge, closer to
    that edge than linear spacing does. *)
Theorem half_cosine_clusters (N : Z) (a b a' b' : R) :
  (4 <= N)%Z →
  grid true N !! 1%nat = Some a → grid false N !! 1%nat = Some b →
  grid true N !! (Z.to_nat N - 2)%nat = Some a' →
  grid false N !! (Z.to_nat N - 2)%nat = Some b' →
  a < b ∧ 1 - a' < 1 - b'.
Proof.
  intros HN Ha Hb Ha' Hb'.
  assert (H2 : (2 <= N)%Z) by lia.
  assert (H1 : (1 < Z.to_nat N)%nat) by lia.
  pose proof (spec_station_first_gap N HN) as Hgap.
  pose proof (spec_station_mirror true N 1 H2 H1) as Mt.
  pose proof (spec_station_mirror false N 1 H2 H1) as Mf.
  replace (Z.to_nat N - 1 - 1)%nat with (Z.to_nat N - 2)%nat in Mt, Mf by lia.
  rewrite grid_lookup in Ha, Hb, Ha', Hb' by lia.
  injection Ha as <-. injection Hb as <-.
  injection Ha' as <-. injection Hb' as <-.
  simpl spec_station in Hgap, Mt, Mf. split; lra.
Qed.

Lemma half_cosine_clusters_witness :
  (4 <= 4)%Z
  ∧ grid true 4 !! 1%nat = Some (spec_station true 4 1)
  ∧ grid false 4 !! 1%nat = Some (spec_station false 4 1)
  ∧ grid true 4 !! (Z.to_nat 4 - 2)%nat = Some (spec_station true 4 2)
  ∧ grid false 4 !! (Z.to_nat 4 - 2)%nat = Some (spec_station false 4 2)
  ∧ spec_station true 4 1 < spec_station false 4 1
  ∧ 1 - spec_station true 4 2 < 1 - spec_station false 4 2.
Proof.
  assert (H4 : (4 <= 4)%Z) by lia. assert (H2 : (2 <= 4)%Z) by lia.
  assert (L1 : (1 < Z.to_nat 4)%nat) by (simpl; lia).
  assert (L2 : (2 < Z.to_nat 4)%nat) by (simpl; lia).
  split; [exact H4|].
  split; [exact (grid_lookup true 4 1 H2 L1)|].
  split; [exact (grid_lookup false 4 1 H2 L1)|].
  split; [exact (grid_lookup true 4 2 H2 L2)|].
  split; [exact (grid_lookup false 4 2 H2 L2)|].
  exact (half_cosine_clusters 4 _ _ _ _ H4 (grid_lookup true 4 1 H2 L1)
           (grid_lookup false 4 1 H2 L1) (grid_lookup true 4 2 H2 L2)
           (grid_lookup false 4 2 H2 L2)).
Defined.

(** ** The area the loop encloses *)

Section Shoelace.
Implicit Types l : list (R * R).

Lemma shoelace_app l1 (a : R * R) l2 :
  shoelace (l1 ++ a :: l2) = shoelace (l1 ++ [a]) + shoelace (a :: l2).
Proof.
  induction l1 as [|x l1 IH]; simpl.
  - destruct l2; simpl; lra.
  - destruct l1 as [|y l1]; simpl in *; [lra|].
    rewrite IH. lra.
Qed.

Lemma shoelace_reverse l : shoelace (reverse l) = - shoelace l.
Proof.
  induction l as [|x l IH]; [simpl; lra|].
  destruct l as [|y l]; [simpl; lra|].
  rewrite reverse_cons. rewrite (reverse_cons l y) in *.
  rewrite <- (assoc_L (++)). simpl app.
  rewrite shoelace_app. rewrite IH. simpl. lra.
Qed.
End Shoelace.

(** Between a lower and an upper polyline over the same stations, the
    camber cancels and the thickness is summed by the trapezoid rule, up
    to the two end terms. *)
Lemma shoelace_surfaces (c h : R → R) (a : R) (x : list R) (e : R) :
  last (a :: x) = Some e →
  shoelace ((λ v, (v, c v - h v)) <$> a :: x)
  - shoelace ((λ v, (v, c v + h v)) <$> a :: x)
  = 2 * (trapezoid h (a :: x) - (e * h e - a * h a)).
Proof.
  revert a. induction x as [|b x IH]; intros a He.
  - simpl in He. injection He as <-. simpl. lra.
  - change (last (a :: b :: x)) with (last (b :: x)) in He.
    specialize (IH b He). simpl in IH |- *. lra.
Qed.

Lemma trapezoid_nonneg (h : R → R) (x : list R) :
  increasing x → (∀ i v, x !! i = Some v → 0 <= h v) → 0 <= trapezoid h x.
Proof.
  induction x as [|a x IH]; intros Hinc Hh; [simpl; lra|].
  destruct x as [|b x]; [simpl; lra|].
  change (trapezoid h (a :: b :: x))
    with ((b - a) * (h a + h b) + trapezoid h (b :: x)).
  pose proof (Hinc 0%nat 1%nat a b (le_n 1) eq_refl eq_refl).
  pose proof (Hh 0%nat a eq_refl). pose proof (Hh 1%nat b eq_refl).
  assert (0 <= trapezoid h (b :: x)).
  { apply IH; [eapply increasing_tail; exact Hinc|].
    intros i v Hv. apply (Hh (S i) v Hv). }
  nra.
Qed.

Lemma zip_fmap_app (f f' : R → R) (A B : list R) :
  zip (A ++ B) ((f <$> A) ++ (f' <$> B))
  = ((λ v, (v, f v)) <$> A) ++ ((λ v, (v, f' v)) <$> B).
Proof.
  induction A as [|a A IH]; cbn.
  - induction B as [|b B IH]; cbn; [reflexivity|]. f_equal. exact IH.
  - f_equal. exact IH.
Qed.

Lemma upper_surface_fmap (m p t : R) (cte : bool) (x : list R) :
  increasing x →
  upper_surface m p t cte x
  = (λ v, spec_camber m p v + spec_thickness (spec_c4 cte) t v) <$> x.
Proof.
  intros Hinc. apply list_eq. intros i. rewrite list_lookup_fmap.
  destruct (x !! i) as [v|] eqn:Hv.
  - now rewrite (upper_surface_lookup m p t cte x i v Hinc Hv).
  - apply lookup_ge_None. rewrite upper_surface_length.
    now apply lookup_ge_None.
Qed.

Lemma lower_surface_fmap (m p t : R) (cte : bool) (x : list R) :
  increasing x →
  lower_surface m p t cte x
  = (λ v, spec_camber m p v - spec_thickness (spec_c4 cte) t v) <$> x.
Proof.
  intros Hinc. apply list_eq. intros i. rewrite list_lookup_fmap.
  destruct (x !! i) as [v|] eqn:Hv.
  - now rewrite (lower_surface_lookup m p t cte x i v Hinc Hv).
  - apply lookup_ge_None. rewrite lower_surface_length.
    now apply lookup_ge_None.
Qed.

(** In exact arithmetic the result is the upper polyline reversed
    followed by the lower polyline without its first point. *)
Lemma coordinates_surfaces (m p t : R) (hcs cte : bool) (N : Z) :
  (0 < N)%Z →
  zip (loop_x (grid hcs N)) (loop_y m p t cte (grid hcs N))
  = reverse ((λ v, (v, spec_camber m p v + spec_thickness (spec_c4 cte) t v))
               <$> grid hcs N)
    ++ drop 1 ((λ v, (v, spec_camber m p v - spec_thickness (spec_c4 cte) t v))
                 <$> grid hcs N).
Proof.
  intros HN. pose proof (grid_is_increasing hcs N) as Hinc.
  assert (Hy : loop_y m p t cte (grid hcs N)
               = reverse (upper_surface m p t cte (grid hcs N))
                 ++ drop 1 (lower_surface m p t cte (grid hcs N))).
  { destruct cte; [now apply closed_ends_exact|reflexivity]. }
  rewrite Hy, upper_surface_fmap, lower_surface_fmap by exact Hinc.
  unfold loop_x. rewrite <- !fmap_reverse, <- !fmap_drop.
  apply zip_fmap_app.
Qed.

(** X11. With the trailing edge closed, the shoelace sum of the returned
    loop (twice the signed area it encloses) is twice the sum of
    [(b - a) * (h a + h b)] over neighbouring stations [a], [b], with [h]
    the half thickness: the camber plays no part in it. It is never
    negative, and it is positive from three stations on when the thickness
    field is positive, so that in axes with [x] to the right and [y]
    upwards the loop runs counter-clockwise. *)
Theorem NACA4_enclosed_area (number : string) (N : Z)
    (hcs save : bool) (fs : gmap string string) :
  valid_designator number = true → (0 < N)%Z →
  ∃ m p t coordinates,
    decode number = Ok (m, p, t)
    ∧ (NACA4 number N hcs true save fs).1 = Ok coordinates
    ∧ shoelace coordinates
      = 2 * trapezoid (spec_thickness 0.10360 t) (grid hcs N)
    ∧ 0 <= shoelace coordinates
    ∧ (0 < t → (3 <= N)%Z → 0 < shoelace coordinates).
Proof.
  intros Hv HN.
  destruct (valid_designator_ranges number Hv) as (m & p & t & Hd & _ & _ & Ht).
  pose proof (grid_is_increasing hcs N) as Hinc.
  pose proof (grid_first hcs N HN) as H0.
  pose proof (grid_length hcs N) as Hlen.
  exists m, p, t, (zip (loop_x (grid hcs N)) (loop_y m p t true (grid hcs N))).
  split; [exact Hd|].
  split; [exact (NACA4_valid _ _ _ _ _ _ _ _ _ Hv HN Hd)|].
  change 0.10360 with (spec_c4 true).
  set (h := spec_thickness (spec_c4 true) t).
  set (c := spec_camber m p).
  assert (Hhb : ∀ i v, grid hcs N !! i = Some v → 0 <= h v).
  { intros i v Hi.
    apply spec_thickness_nonneg; [exact Ht|exact (grid_bounds hcs N i v Hi)]. }
  assert (Hnn : 0 <= trapezoid h (grid hcs N))
    by (apply trapezoid_nonneg; assumption).
  assert (Harea : shoelace (zip (loop_x (grid hcs N))
                              (loop_y m p t true (grid hcs N)))
                  = 2 * trapezoid h (grid hcs N)).
  { rewrite (coordinates_surfaces m p t hcs true N HN). fold h c.
    assert (Hend : ∃ e, last (grid hcs N) = Some e ∧ h e = 0).
    { rewrite last_lookup, Hlen.
      destruct (decide (Z.to_nat N = 1%nat)) as [E|E].
      - exists 0. rewrite E. split; [exact H0|].
        apply spec_thickness_leading_edge.
      - exists 1. split; [|apply spec_thickness_trailing_edge].
        replace (Init.Nat.pred (Z.to_nat N)) with (Z.to_nat N - 1)%nat by lia.
        apply grid_last. lia. }
    destruct Hend as (e & He & Hhe).
    destruct (grid hcs N) as [|a g]; [discriminate H0|].
    simpl in H0. injection H0 as ->.
    assert (Hh0 : h 0 = 0) by apply spec_thickness_leading_edge.
    pose proof (shoelace_surfaces c h 0 g e He) as Hs.
    rewrite Hhe, Hh0 in Hs.
    rewrite !fmap_cons in *.
    set (U := (λ v, (v, c v + h v)) <$> g) in *.
    set (L := (λ v, (v, c v - h v)) <$> g) in *.
    assert (Eq0 : (0, c 0 + h 0) = (0, c 0 - h 0))
      by (f_equal; rewrite Hh0; lra).
    change (drop 1 ((0, c 0 - h 0) :: L)) with L.
    rewrite reverse_cons, <- (assoc_L (++)).
    change ([(0, c 0 + h 0)] ++ L) with ((0, c 0 + h 0) :: L).
    rewrite shoelace_app, <- reverse_cons, shoelace_reverse.
    assert (E2 : shoelace ((0, c 0 + h 0) :: L) = shoelace ((0, c 0 - h 0) :: L))
      by now rewrite Eq0.
    rewrite E2.
    lra. }
  split; [exact Harea|]. split; [rewrite Harea; lra|].
  intros Ht0 HN3. rewrite Harea.
  assert (H1 : ∃ x1, grid hcs N !! 1%nat = Some x1 ∧ 0 < x1 < 1).
  { destruct (lookup_lt_is_Some_2 (grid hcs N) 1) as [x1 Hx1];
      [rewrite Hlen; lia|].
    exists x1. split; [exact Hx1|].
    apply (grid_interior hcs N 1 x1); [lia|lia|exact Hx1]. }
  destruct H1 as (x1 & Hx1 & Hin).
  pose proof (spec_thickness_positive true t x1 Ht0 Hin) as Hpos. fold h in Hpos.
  destruct (grid hcs N) as [|a [|b g]]; try discriminate.
  simpl in H0, Hx1. injection H0 as ->. injection Hx1 as ->.
  change (trapezoid h (0 :: x1 :: g))
    with ((x1 - 0) * (h 0 + h x1) + trapezoid h (x1 :: g)).
  assert (Hh0 : h 0 = 0) by apply spec_thickness_leading_edge.
  assert (0 <= trapezoid h (x1 :: g)).
  { apply trapezoid_nonneg; [eapply increasing_tail; exact Hinc|].
    intros i v Hi. exact (Hhb (S i) v Hi). }
  nra.
Qed.

Lemma NACA4_enclosed_area_witness :
  valid_designator "2412" = true ∧ (0 < 50)%Z
  ∧ ∃ m p t coordinates,
      decode "2412" = Ok (m, p, t)
      ∧ (NACA4 "2412" 50 true true false ∅).1 = Ok coordinates
      ∧ shoelace coordinates
        = 2 * trapezoid (spec_thickness 0.10360 t) (grid true 50)
      ∧ 0 <= shoelace coordinates
      ∧ (0 < t → (3 <= 50)%Z → 0 < shoelace coordinates).
Proof.
  split; [reflexivity|]. split; [lia|].
  apply (NACA4_enclosed_area "2412" 50 true false ∅); [reflexivity|lia].
Defined.

(** ** Degenerate and paired calls *)

(** X12. With [N = 1] every valid designator gives the single point
    [(0, 0)], whatever the spacing and the trailing-edge flag. *)
Theorem NACA4_one_point (number : string) (hcs cte save : bool)
    (fs : gmap string string) :
  valid_designator number = true →
  (NACA4 number 1 hcs cte save fs).1 = Ok [(0, 0)].
Proof.
  intros Hv. unfold NACA4.
  now rewrite (NACA4_coordinates_single_point number hcs cte Hv).
Qed.

Lemma NACA4_one_point_witness :
  valid_designator "2412" = true
  ∧ (NACA4 "2412" 1 true true false ∅).1 = Ok [(0, 0)].
Proof.
  split; [reflexivity|].
  apply (NACA4_one_point "2412" true true false ∅). reflexivity.
Defined.

Lemma spec_thickness_shift (t x : R) :
  spec_thickness (spec_c4 false) t x - spec_thickness (spec_c4 true) t x
  = 0.0105 * t * x ^ 4.
Proof.
  unfold spec_thickness, spec_c4.
  set (a := sqrt x). set (q := x ^ 4). set (x2 := x ^ 2). set (x3 := x ^ 3).
  nra.
Qed.

(** X13. The open and the closed variant of one airfoil differ, station
    by station, by [0.0105 t x^4]: the open upper ordinate lies that much
    above the closed one and the open lower ordinate that much below. *)
Theorem NACA4_closing_shift (number : string) (N : Z)
    (hcs save : bool) (fs : gmap string string) :
  valid_designator number = true → (0 < N)%Z →
  ∃ m p t open closed,
    decode number = Ok (m, p, t)
    ∧ (NACA4 number N hcs false save fs).1 = Ok open
    ∧ (NACA4 number N hcs true save fs).1 = Ok closed
    ∧ ∀ (i : nat) (x : R),
        grid hcs N !! i = Some x →
        (∃ y_open y_closed,
           open !! (Z.to_nat N - 1 - i)%nat = Some (x, y_open)
           ∧ closed !! (Z.to_nat N - 1 - i)%nat = Some (x, y_closed)
           ∧ y_open - y_closed = 0.0105 * t * x ^ 4)
        ∧ ((1 ≤ i)%nat →
           ∃ y_open y_closed,
             open !! (Z.to_nat N - 1 + i)%nat = Some (x, y_open)
             ∧ closed !! (Z.to_nat N - 1 + i)%nat = Some (x, y_closed)
             ∧ y_closed - y_open = 0.0105 * t * x ^ 4).
Proof.
  intros Hv HN.
  destruct (valid_designator_decodes number Hv) as (_ & m & p & t & Hd & _).
  exists m, p, t,
    (zip (loop_x (grid hcs N)) (loop_y m p t false (grid hcs N))),
    (zip (loop_x (grid hcs N)) (loop_y m p t true (grid hcs N))).
  split; [exact Hd|].
  split; [exact (NACA4_valid _ _ _ _ _ _ _ _ _ Hv HN Hd)|].
  split; [exact (NACA4_valid _ _ _ _ _ _ _ _ _ Hv HN Hd)|].
  intros i x Hx. pose proof (lookup_lt_Some _ _ _ Hx) as Hi.
  rewrite !(coordinates_surfaces m p t hcs _ N HN).
  pose proof (spec_thickness_shift t x) as Hs.
  assert (Hlen : ∀ f : R → R * R, length (f <$> grid hcs N) = Z.to_nat N).
  { intros f. now rewrite length_fmap, grid_length. }
  rewrite grid_length in Hi. split.
  - eexists _, _.
    rewrite <- (Hlen (λ v, (v, spec_camber m p v
                               + spec_thickness (spec_c4 false) t v))) at 1.
    rewrite loop_lookup_upper by (rewrite Hlen; lia).
    rewrite <- (Hlen (λ v, (v, spec_camber m p v
                               + spec_thickness (spec_c4 true) t v))) at 1.
    rewrite loop_lookup_upper by (rewrite Hlen; lia).
    rewrite !list_lookup_fmap, Hx. cbn [fmap option_fmap option_map].
    split; [reflexivity|]. split; [reflexivity|]. lra.
  - intros H1. eexists _, _.
    rewrite <- (Hlen (λ v, (v, spec_camber m p v
                               + spec_thickness (spec_c4 false) t v))) at 1.
    rewrite loop_lookup_lower by (rewrite ?Hlen; lia).
    rewrite <- (Hlen (λ v, (v, spec_camber m p v
                               + spec_thickness (spec_c4 true) t v))) at 1.
    rewrite loop_lookup_lower by (rewrite ?Hlen; lia).
    rewrite !list_lookup_fmap, Hx. cbn [fmap option_fmap option_map].
    split; [reflexivity|]. split; [reflexivity|]. lra.
Qed.

Lemma NACA4_closing_shift_witness :
  valid_designator "2412" = true ∧ (0 < 50)%Z
  ∧ ∃ m p t open closed,
      decode "2412" = Ok (m, p, t)
      ∧ (NACA4 "2412" 50 true false false ∅).1 = Ok open
      ∧ (NACA4 "2412" 50 true true false ∅).1 = Ok closed
      ∧ ∀ (i : nat) (x : R),
          grid true 50 !! i = Some x →
          (∃ y_open y_closed,
             open !! (Z.to_nat 50 - 1 - i)%nat = Some (x, y_open)
             ∧ closed !! (Z.to_nat 50 - 1 - i)%nat = Some (x, y_closed)
             ∧ y_open - y_closed = 0.0105 * t * x ^ 4)
          ∧ ((1 ≤ i)%nat →
             ∃ y_open y_closed,
               open !! (Z.to_nat 50 - 1 + i)%nat = Some (x, y_open)
               ∧ closed !! (Z.to_nat 50 - 1 + i)%nat = Some (x, y_closed)
               ∧ y_closed - y_open = 0.0105 * t * x ^ 4).
Proof.
  split; [reflexivity|]. split; [lia|].
  apply (NACA4_closing_shift "2412" 50 true false ∅); [reflexivity|lia].
Defined.
